(** * powercalc discovery: a shallow embedding of
      custom_components/powercalc/discovery.py

    The module scans the entity registry of a Home Assistant instance,
    resolves manufacturer and model of each entity from the device
    registry, looks the pair up in the profile library and dispatches a
    discovery flow for every entity found.

    Python values are modelled as follows.
    - [str] is [string], the UTF-8 encoding of the Python string. The
      characters the code looks for are ASCII, and an ASCII byte never
      occurs inside a multi-byte UTF-8 sequence; the one other character
      that matters, the long s (U+017F), is the byte pair C5 BF.
    - [Optional[str]] is [option string]; [str(x)] is [py_str].
    - a YAML tree (the declarative configuration) is the type [yaml];
      a dict is its list of items in iteration order.
    - dicts built by the code (discovery payloads) and the device
      registry are [gmap]s keyed by strings.
    - an [async] function is modelled by the function it computes: the
      sweep is one cooperative task and nothing else runs in between.
    - a call that may raise returns a [result]. *)

From Stdlib Require Import Ascii String List Permutation.
From stdpp Require Import base option list gmap strings.

Local Open Scope string_scope.
Local Open Scope list_scope.

(** ** Python values *)

(** [str(x)] for [x : Optional[str]]. *)
Definition py_str (x : option string) : string :=
  match x with
  | Some s => s
  | None => "None"
  end.

(** Truthiness of an [Optional[str]]: [None] and [""] are falsy. *)
Definition truthy (x : option string) : bool :=
  match x with
  | Some s => negb (String.eqb s "")
  | None => false
  end.

(** Exceptions that may leave a call. [ModelNotSupported] is the one
    exception class the module imports from [.errors]; every other
    exception, a collaborator's or the [TypeError] of a loop over a
    value that is not iterable, is [OtherError]. *)
Inductive exn : Type :=
  | ModelNotSupported
  | OtherError (msg : string).

Inductive result (A : Type) : Type :=
  | Ok (a : A)
  | Raise (e : exn).
Arguments Ok {A} a.
Arguments Raise {A} e.

Definition result_map {A B : Type} (f : A -> B) (r : result A) : result B :=
  match r with
  | Ok a => Ok (f a)
  | Raise e => Raise e
  end.

(** A node of the declarative configuration as the YAML loader returns
    it: scalars, sequences and mappings. The items of a mapping are kept
    in iteration order. A key that is not a string behaves like any
    string key different from the ones the code compares with. *)
#[warnings="-register-all"]
Inductive yaml : Type :=
  | YNone
  | YStr (s : string)
  | YInt (z : Z)
  | YBool (b : bool)
  | YList (items : list yaml)
  | YDict (items : list (string * yaml)).

(** Structural induction that reaches below sequences and mappings. *)
Section yaml_induction.
Variable P : yaml -> Prop.
Hypothesis HNone : P YNone.
Hypothesis HStr : forall s, P (YStr s).
Hypothesis HInt : forall z, P (YInt z).
Hypothesis HBool : forall b, P (YBool b).
Hypothesis HList : forall l, Forall P l -> P (YList l).
Hypothesis HDict : forall d, Forall (fun kv => P (snd kv)) d -> P (YDict d).

Fixpoint yaml_rect_nested (v : yaml) : P v :=
  match v with
  | YNone => HNone
  | YStr s => HStr s
  | YInt z => HInt z
  | YBool b => HBool b
  | YList l =>
      HList l
        ((fix go (l : list yaml) : Forall P l :=
            match l with
            | [] => Forall_nil_2 _
            | x :: l' => Forall_cons_2 _ x l' (yaml_rect_nested x) (go l')
            end) l)
  | YDict d =>
      HDict d
        ((fix go (d : list (string * yaml)) : Forall (fun kv => P (snd kv)) d :=
            match d with
            | [] => Forall_nil_2 _
            | kv :: d' =>
                Forall_cons_2 (fun kv => P (snd kv)) kv d'
                  (yaml_rect_nested (snd kv)) (go d')
            end) d)
  end.
End yaml_induction.

(** [d.get(key)] on a mapping node: the value of the first item with
    that key (a Python dict holds a key once). *)
Fixpoint dict_get (key : string) (d : list (string * yaml)) : option yaml :=
  match d with
  | [] => None
  | (k, v) :: d' => if String.eqb k key then Some v else dict_get key d'
  end.

(** [for item in v]: the items of a sequence, the keys of a mapping, the
    characters of a string (here one item for each byte: a string in
    either case, never a mapping); any other value is not iterable and
    the loop raises [TypeError]. *)
Definition py_iter (v : yaml) : result (list yaml) :=
  match v with
  | YList items => Ok items
  | YDict d => Ok (List.map (fun kv => YStr (fst kv)) d)
  | YStr s => Ok (List.map (fun c => YStr (String c EmptyString)) (list_ascii_of_string s))
  | YNone | YInt _ | YBool _ => Raise (OtherError "TypeError")
  end.

(** [x == s] for a configuration value [x] and a string [s]: only a
    string equals a string. *)
Definition yaml_eq_str (x : yaml) (s : string) : bool :=
  match x with
  | YStr t => String.eqb t s
  | _ => false
  end.

(** ** Constants *)

(** From [homeassistant.const], [homeassistant.components.light],
    [homeassistant.components.sensor] and [homeassistant.config_entries]. *)
Definition CONF_ENTITY_ID : string := "entity_id".
Definition CONF_PLATFORM : string := "platform".
Definition LIGHT_DOMAIN : string := "light".
Definition SENSOR_DOMAIN : string := "sensor".
Definition SOURCE_USER : string := "user".
Definition SOURCE_INTEGRATION_DISCOVERY : string := "integration_discovery".

(** Modelled from the spec: const.py is not among the sources. The keys
    of the emitted record are the field names the spec gives it
    (manufacturer, model, profile, source entity, discovery type), the
    domain is the integration's. *)
Definition DOMAIN : string := "powercalc".
Definition CONF_MANUFACTURER : string := "manufacturer".
Definition CONF_MODEL : string := "model".
Definition CONF_MODE : string := "mode".
Definition DISCOVERY_POWER_PROFILE : string := "power_profile".
Definition DISCOVERY_SOURCE_ENTITY : string := "source_entity".
Definition DISCOVERY_TYPE : string := "discovery_type".

(** Modelled from the spec: the calculation-mode markers of const.py;
    [WLED] is the fixed marker of the vendor-special rule. *)
Inductive CalculationStrategy : Type := FIXED | LINEAR | LUT | WLED.

(** Modelled from the spec: the discovery type of the legacy payload,
    "library". *)
Inductive PowercalcDiscoveryType : Type := LIBRARY.

Inductive EntityCategory : Type := CONFIG | DIAGNOSTIC | SYSTEM.

(** ** The recursive scan of a platform block *)

(** [_find_entity_ids_in_yaml_config], as a function of the node it is
    called on. The source calls it on dicts only; the three branches of
    the loop body are the [if]/[elif]/[elif] of the source. *)
Fixpoint find_entity_ids (v : yaml) : list yaml :=
  match v with
  | YDict search_dict =>
      flat_map
        (fun '(key, value) =>
           if String.eqb key "entity_id" then [value]
           else
             match value with
             | YDict _ => find_entity_ids value
             | YList l =>
                 flat_map
                   (fun item =>
                      match item with
                      | YDict _ => find_entity_ids item
                      | _ => []
                      end) l
             | _ => []
             end)
        search_dict
  | _ => []
  end.

Definition _find_entity_ids_in_yaml_config (search_dict : list (string * yaml))
  : list yaml :=
  find_entity_ids (YDict search_dict).

(** ** Strings *)

(** [s.replace(old, new)] for a one-character [old]. *)
Fixpoint str_replace_char (old : ascii) (new : string) (s : string) : string :=
  match s with
  | EmptyString => EmptyString
  | String c s' =>
      if Ascii.eqb c old then new +:+ str_replace_char old new s'
      else String c (str_replace_char old new s')
  end.

(** The small letter of an ASCII capital; every other byte stays. *)
Definition ascii_lower (c : ascii) : ascii :=
  let n := nat_of_ascii c in
  if (65 <=? n)%nat && (n <=? 90)%nat then ascii_of_nat (n + 32) else c.

(** One literal [p] of a pattern, a small ASCII letter, at the front of
    [text] under [re.IGNORECASE]: the text behind the character when it
    matches. The compiled pattern accepts a character whose lower case
    is [p] or one of the case equivalents of [p]: the letter itself, its
    capital and, for "s" alone among the letters of "master" and
    "segment", the long s (U+017F, the bytes C5 BF). *)
Definition ignorecase_literal (p : ascii) (text : string) : option string :=
  match text with
  | EmptyString => None
  | String c rest =>
      if Ascii.eqb (ascii_lower c) p then Some rest
      else if Ascii.eqb p "s" && Ascii.eqb c (ascii_of_nat 197) then
        match rest with
        | String c' rest' => if Ascii.eqb c' (ascii_of_nat 191) then Some rest' else None
        | EmptyString => None
        end
      else None
  end.

(** The word [pattern] matches at the front of [text], ignoring case. *)
Fixpoint ignorecase_match (pattern text : string) : bool :=
  match pattern with
  | EmptyString => true
  | String p pattern' =>
      match ignorecase_literal p text with
      | Some rest => ignorecase_match pattern' rest
      | None => false
      end
  end.

(** The word [pattern] matches at some position of [text]. A match
    cannot start inside a multi-byte character: no continuation byte
    starts a literal. *)
Fixpoint ignorecase_search (pattern text : string) : bool :=
  ignorecase_match pattern text
  || match text with
     | EmptyString => false
     | String _ text' => ignorecase_search pattern text'
     end.

(** [re.search("master|segment", name, flags=re.IGNORECASE)] is a match. *)
Definition re_search_master_segment (name : string) : bool :=
  ignorecase_search "master" name || ignorecase_search "segment" name.

(** ** The host's records *)

(** An entry of the entity registry ([er.RegistryEntry]). *)
Record RegistryEntry : Type := {
  entity_id : string;
  domain : string;
  disabled : bool;
  entity_category : option EntityCategory;
  device_id : option string;
  original_name : option string;
}.

(** An entry of the device registry ([dr.DeviceEntry]). *)
Record DeviceEntry : Type := {
  dev_manufacturer : option string;
  dev_model : option string;
}.

(** A configuration entry of this integration's domain. [ce_entity_id]
    is [entry.data.get(CONF_ENTITY_ID)]. *)
Record ConfigEntry : Type := {
  ce_unique_id : option string;
  ce_source : string;
  ce_entity_id : option string;
}.

(** [ModelInfo(manufacturer, model)]. The manufacturer is whatever the
    device registry holds, so it may be [None]; the model went through
    [str()]. *)
Record ModelInfo : Type := {
  mi_manufacturer : option string;
  mi_model : string;
}.

(** Modelled from the spec: common.py is not among the sources. A
    SourceEntity wraps a registry entry and carries the unique key that
    the dedup check reads. *)
Record SourceEntity : Type := {
  se_entity_id : string;
  se_domain : string;
  se_unique_id : option string;
}.

(** Modelled from the spec: power_profile.py is not among the sources. A
    profile carries its own manufacturer and model, the flag saying
    whether the user still has to configure something, and the entity
    kinds it supports. *)
Record PowerProfile : Type := {
  pp_manufacturer : string;
  pp_model : string;
  is_additional_configuration_required : bool;
  supported_domains : list string;
}.

(** Modelled from the spec: [PowerProfile.is_entity_domain_supported],
    "the returned profile's supported-entity-kind set includes the
    source entity's domain". *)
Definition is_entity_domain_supported (p : PowerProfile) (source_entity : SourceEntity) : bool :=
  bool_decide (se_domain source_entity ∈ supported_domains p).

(** The state of the host a sweep reads. [entities] is
    [list(entity_registry.entities.values())], [devices] the device
    registry by device id, [config_entries] is
    [hass.config_entries.async_entries(DOMAIN)]. [ha_config_sensor] is
    the value of the "sensor" key of the configuration handed to the
    manager, whatever its shape, [None] when the key is absent. The two
    functions are the collaborators the sweep awaits:
    [create_source_entity(entity_id, hass)] of common.py and
    [get_power_profile(hass, {}, model_info)] of the profile factory. *)
Record HomeAssistant : Type := {
  entities : list RegistryEntry;
  devices : gmap string DeviceEntry;
  config_entries : list ConfigEntry;
  ha_config_sensor : option yaml;
  create_source_entity : string -> result SourceEntity;
  get_power_profile : ModelInfo -> result PowerProfile;
}.

(** A value of a discovery payload. *)
Inductive dvalue : Type :=
  | DStr (s : string)
  | DSourceEntity (s : SourceEntity)
  | DPowerProfile (p : PowerProfile)
  | DMode (m : CalculationStrategy)
  | DType (t : PowercalcDiscoveryType).

(** What the sweep hands to the host:
    [discovery_flow.async_create_flow(hass, domain, context={"source": source}, data)]
    and the task running
    [discovery.async_load_platform(hass, component, platform, discovered, ha_config)]. *)
Inductive effect : Type :=
  | CreateFlow (flow_domain : string) (source : string) (data : gmap string dvalue)
  | LoadPlatform (component platform : string) (discovered : gmap string dvalue).

(** The mutable part of a [DiscoveryManager]. [index_builds] is not a
    field of the source: it counts the calls of
    [_load_manually_configured_entities], so that the life cycle of the
    cached index can be stated. *)
Record DiscoveryManager : Type := {
  manually_configured_entities : option (list yaml);
  index_builds : nat;
}.

(** [DiscoveryManager.__init__]. *)
Definition new_manager : DiscoveryManager :=
  {| manually_configured_entities := None; index_builds := 0 |}.

(** ** The module *)

(** The tables of aliases.py and of power_profile.py, which are not
    among the sources: the alias table (raw manufacturer name to
    canonical name), the manufacturer name of the segmented-lighting
    vendor, and the table of device types with the entity domain of
    each. The module is read for any such tables. *)
Class Tables : Type := {
  MANUFACTURER_ALIASES : gmap string string;
  MANUFACTURER_WLED : string;
  DEVICE_DOMAINS : gmap string string;
}.

Section discovery.

Context {tables : Tables}.

(** [dr.async_get(hass).async_get(device_id)]. *)
Definition device_registry_async_get (hass : HomeAssistant) (id : option string)
  : option DeviceEntry :=
  match id with
  | Some i => devices hass !! i
  | None => None
  end.

Definition has_manufacturer_and_model_information
    (hass : HomeAssistant) (entity_entry : RegistryEntry) : bool :=
  match device_registry_async_get hass (device_id entity_entry) with
  | None => false
  | Some device_entry =>
      if (String.length (py_str (dev_manufacturer device_entry)) =? 0)%nat
         || (String.length (py_str (dev_model device_entry)) =? 0)%nat
      then false
      else true
  end.

Definition autodiscover_model
    (hass : HomeAssistant) (entity_entry : option RegistryEntry) : option ModelInfo :=
  match entity_entry with
  | None => None
  | Some entity_entry =>
      if negb (has_manufacturer_and_model_information hass entity_entry) then None
      else
        match device_registry_async_get hass (device_id entity_entry) with
        | None => None (* not reached: the check above found the device *)
        | Some device_entry =>
            let model_id := dev_model device_entry in
            let manufacturer := dev_manufacturer device_entry in
            let alias := manufacturer ≫= (MANUFACTURER_ALIASES !!.) in
            let manufacturer := if truthy alias then alias else manufacturer in
            let model_id := str_replace_char "/" "#slash#" (py_str model_id) in
            Some {| mi_manufacturer := manufacturer; mi_model := model_id |}
        end
  end.

(** The items of the sensor configuration that are powercalc platform
    blocks: [isinstance(item, dict) and item.get(CONF_PLATFORM) == DOMAIN]. *)
Definition is_platform_entry (item : yaml) : bool :=
  match item with
  | YDict d =>
      match dict_get CONF_PLATFORM d with
      | Some p => yaml_eq_str p DOMAIN
      | None => false
      end
  | _ => false
  end.

Definition entry_entity_id (entry : ConfigEntry) : yaml :=
  match ce_entity_id entry with
  | Some s => YStr s
  | None => YNone
  end.

(** The items the comprehension over [sensor_config] visits; nothing
    when the configuration has no "sensor" key. *)
Definition sensor_items (hass : HomeAssistant) : result (list yaml) :=
  match ha_config_sensor hass with
  | Some sensor_config => py_iter sensor_config
  | None => Ok []
  end.

Definition _load_manually_configured_entities (hass : HomeAssistant) : result (list yaml) :=
  match sensor_items hass with
  | Raise e => Raise e
  | Ok items =>
      let platform_entries := List.filter is_platform_entry items in
      let entities := flat_map find_entity_ids platform_entries in
      Ok (entities
          ++ List.map entry_entity_id
               (List.filter (fun entry => String.eqb (ce_source entry) SOURCE_USER)
                  (config_entries hass)))
  end.

(** [entity_id in entities]. *)
Definition entity_id_in (entity_id : string) (entities : list yaml) : bool :=
  existsb (fun x => yaml_eq_str x entity_id) entities.

(** Truthiness of [self.manually_configured_entities]: [None] and the
    empty list are falsy. *)
Definition index_truthy (index : option (list yaml)) : bool :=
  match index with
  | Some (_ :: _) => true
  | _ => false
  end.

(** The answer, or the exception of the load, and the manager
    afterwards. An exception leaves the cached index as it was. *)
Definition _is_user_configured
    (hass : HomeAssistant) (self : DiscoveryManager) (entity_id : string)
  : result bool * DiscoveryManager :=
  if negb (index_truthy (manually_configured_entities self)) then
    match _load_manually_configured_entities hass with
    | Ok entities =>
        (Ok (entity_id_in entity_id entities),
         {| manually_configured_entities := Some entities;
            index_builds := S (index_builds self) |})
    | Raise e =>
        (Raise e,
         {| manually_configured_entities := manually_configured_entities self;
            index_builds := S (index_builds self) |})
    end
  else (Ok (entity_id_in entity_id (default [] (manually_configured_entities self))), self).

Definition should_process_entity
    (hass : HomeAssistant) (self : DiscoveryManager) (entity_entry : RegistryEntry)
  : result bool * DiscoveryManager :=
  if disabled entity_entry then (Ok false, self)
  else if negb (bool_decide (domain entity_entry ∈ (map_to_list DEVICE_DOMAINS).*2))
  then (Ok false, self)
  else if match entity_category entity_entry with
          | Some CONFIG | Some DIAGNOSTIC => true
          | _ => false
          end
  then (Ok false, self)
  else
    match _is_user_configured hass self (entity_id entity_entry) with
    | (Ok has_user_config, self) =>
        if has_user_config then (Ok false, self) else (Ok true, self)
    | (Raise e, self) => (Raise e, self)
    end.

(** The test of the dedup check:
    [entry.unique_id in [source_entity.unique_id, f"pc_{source_entity.unique_id}"]]. *)
Definition is_existing_entry (source_entity : SourceEntity) (entry : ConfigEntry) : bool :=
  bool_decide (ce_unique_id entry = se_unique_id source_entity)
  || bool_decide (ce_unique_id entry = Some ("pc_" +:+ py_str (se_unique_id source_entity))).

Definition _init_entity_discovery
    (hass : HomeAssistant) (source_entity : SourceEntity)
    (power_profile : option PowerProfile)
    (extra_discovery_data : option (gmap string dvalue)) : list effect :=
  let existing_entries := List.filter (is_existing_entry source_entity) (config_entries hass) in
  match existing_entries with
  | _ :: _ => []
  | [] =>
      let discovery_data : gmap string dvalue :=
        <[DISCOVERY_SOURCE_ENTITY := DSourceEntity source_entity]>
          (<[CONF_ENTITY_ID := DStr (se_entity_id source_entity)]> ∅) in
      let discovery_data :=
        match power_profile with
        | Some p =>
            <[CONF_MODEL := DStr (pp_model p)]>
              (<[CONF_MANUFACTURER := DStr (pp_manufacturer p)]>
                 (<[DISCOVERY_POWER_PROFILE := DPowerProfile p]> discovery_data))
        | None => discovery_data
        end in
      let discovery_data :=
        match extra_discovery_data with
        | Some extra =>
            if (size extra =? 0)%nat then discovery_data else extra ∪ discovery_data
        | None => discovery_data
        end in
      CreateFlow DOMAIN SOURCE_INTEGRATION_DISCOVERY discovery_data
      :: match power_profile with
         | Some p =>
             if negb (is_additional_configuration_required p) then
               [LoadPlatform SENSOR_DOMAIN DOMAIN
                  (<[DISCOVERY_TYPE := DType LIBRARY]>
                     (<[DISCOVERY_POWER_PROFILE := DPowerProfile p]>
                        (<[DISCOVERY_SOURCE_ENTITY := DSourceEntity source_entity]>
                           (<[CONF_ENTITY_ID := DStr (se_entity_id source_entity)]> ∅))))]
             else []
         | None => []
         end
  end.

(** The condition of the vendor-special branch of [start_discovery]. *)
Definition is_wled_light (model_info : ModelInfo) (entity_entry : RegistryEntry) : bool :=
  bool_decide (mi_manufacturer model_info = Some MANUFACTURER_WLED)
  && String.eqb (domain entity_entry) LIGHT_DOMAIN
  && negb (re_search_master_segment (py_str (original_name entity_entry))).

(** The extra data of the vendor-special branch. *)
Definition wled_discovery_data (model_info : ModelInfo) : gmap string dvalue :=
  <[CONF_MODEL := DStr (mi_model model_info)]>
    (<[CONF_MANUFACTURER := DStr (py_str (mi_manufacturer model_info))]>
       (<[CONF_MODE := DMode WLED]> ∅)).

(** One turn of the loop of [start_discovery]: the records handed to
    the host, the manager afterwards, and [Ok] when the loop goes on
    with the next entry ([continue] or the end of the body), [Raise]
    when an exception leaves the body. *)
Definition process_entity
    (hass : HomeAssistant) (self : DiscoveryManager) (entity_entry : RegistryEntry)
  : list effect * DiscoveryManager * result unit :=
  match should_process_entity hass self entity_entry with
  | (Raise e, self) => ([], self, Raise e)
  | (Ok false, self) => ([], self, Ok tt)
  | (Ok true, self) =>
    match autodiscover_model hass (Some entity_entry) with
    | None => ([], self, Ok tt)
    | Some model_info =>
        if negb (truthy (mi_manufacturer model_info))
           || String.eqb (mi_model model_info) ""
        then ([], self, Ok tt)
        else
          match create_source_entity hass (entity_id entity_entry) with
          | Raise e => ([], self, Raise e)
          | Ok source_entity =>
              if is_wled_light model_info entity_entry then
                (_init_entity_discovery hass source_entity None
                   (Some (wled_discovery_data model_info)),
                 self, Ok tt)
              else
                match get_power_profile hass model_info with
                | Raise ModelNotSupported => ([], self, Ok tt)
                | Raise e => ([], self, Raise e)
                | Ok power_profile =>
                    if negb (is_entity_domain_supported power_profile source_entity)
                    then ([], self, Ok tt)
                    else
                      (_init_entity_discovery hass source_entity (Some power_profile)
                         (Some ∅),
                       self, Ok tt)
                end
          end
    end
  end.

(** The loop of [start_discovery] over the entries still to visit. *)
Fixpoint discovery_loop
    (hass : HomeAssistant) (self : DiscoveryManager) (entries : list RegistryEntry)
  : list effect * DiscoveryManager * result unit :=
  match entries with
  | [] => ([], self, Ok tt)
  | entity_entry :: rest =>
      match process_entity hass self entity_entry with
      | (emitted, self, Ok _) =>
          let '(emitted', self, r) := discovery_loop hass self rest in
          (emitted ++ emitted', self, r)
      | (emitted, self, Raise e) => (emitted, self, Raise e)
      end
  end.

Definition start_discovery (hass : HomeAssistant) (self : DiscoveryManager)
  : list effect * DiscoveryManager * result unit :=
  discovery_loop hass self (entities hass).

End discovery.

(** ** Notions used to state the properties *)

(** Every value keyed "entity_id" in a tree, at any depth and through
    any combination of mappings and sequences, in depth-first order.
    This follows the words of the specification, not the code. *)
Fixpoint entity_id_occurrences (v : yaml) : list yaml :=
  match v with
  | YDict d =>
      flat_map
        (fun '(key, value) =>
           (if String.eqb key "entity_id" then [value] else [])
           ++ entity_id_occurrences value)
        d
  | YList l => flat_map entity_id_occurrences l
  | _ => []
  end.

Definition no_occurrence (v : yaml) : bool :=
  match entity_id_occurrences v with
  | [] => true
  | _ :: _ => false
  end.

(** The trees in which every occurrence of the key lies where the scan
    looks: reached from the root through values of mappings and through
    mappings that are items of a sequence, never below the value of
    another "entity_id" key and never inside a sequence that is itself an
    item of a sequence (or any other item that is not a mapping). *)
Fixpoint occurrences_in_reach (v : yaml) : bool :=
  match v with
  | YDict d =>
      forallb
        (fun '(key, value) =>
           if String.eqb key "entity_id" then no_occurrence value
           else
             match value with
             | YDict _ => occurrences_in_reach value
             | YList l =>
                 forallb
                   (fun item =>
                      match item with
                      | YDict _ => occurrences_in_reach item
                      | _ => no_occurrence item
                      end) l
             | _ => true
             end)
        d
  | _ => no_occurrence v
  end.

(** The index a membership test of the manager works with: the cached
    list when it is truthy, a freshly loaded one otherwise, or the
    exception of the load. *)
Definition index_of (hass : HomeAssistant) (self : DiscoveryManager) : result (list yaml) :=
  if index_truthy (manually_configured_entities self)
  then Ok (default [] (manually_configured_entities self))
  else _load_manually_configured_entities hass.

(** A record of the vendor-special rule: a discovery flow without a
    profile that carries the calculation-mode marker. *)
Definition is_vendor_special (e : effect) : bool :=
  match e with
  | CreateFlow _ _ data =>
      match data !! DISCOVERY_POWER_PROFILE, data !! CONF_MODE with
      | None, Some (DMode WLED) => true
      | _, _ => false
      end
  | LoadPlatform _ _ _ => false
  end.

(** The eligibility filter as the specification words it: the
    conjunction of the four conditions, over a given index. *)
Definition isCandidate {tables : Tables} (index : list yaml) (entry : RegistryEntry) : bool :=
  negb (disabled entry)
  && bool_decide (domain entry ∈ (map_to_list DEVICE_DOMAINS).*2)
  && negb match entity_category entry with
          | Some CONFIG | Some DIAGNOSTIC => true
          | _ => false
          end
  && negb (entity_id_in (entity_id entry) index).

(** The same host with another profile library. *)
Definition with_library (hass : HomeAssistant) (library : ModelInfo -> result PowerProfile)
  : HomeAssistant :=
  {| entities := entities hass;
     devices := devices hass;
     config_entries := config_entries hass;
     ha_config_sensor := ha_config_sensor hass;
     create_source_entity := create_source_entity hass;
     get_power_profile := library |}.

(** An entity the user has set up by hand: its identifier is a string
    the scan returns for a powercalc platform block among the items of
    the sensor section, or it is stored in a configuration entry the
    user created. *)
Definition manually_configured (hass : HomeAssistant) (id : string) : Prop :=
  (exists items block,
      sensor_items hass = Ok items
      /\ In block items
      /\ is_platform_entry block = true
      /\ In (YStr id) (find_entity_ids block))
  \/ (exists entry,
         In entry (config_entries hass)
         /\ ce_source entry = SOURCE_USER
         /\ ce_entity_id entry = Some id).

(** The turn of the loop for [entity_entry] gets as far as the library
    lookup, with identity [model_info] and source entity [source_entity]. *)
Definition reaches_lookup {tables : Tables}
    (hass : HomeAssistant) (self : DiscoveryManager) (entity_entry : RegistryEntry)
    (model_info : ModelInfo) (source_entity : SourceEntity) : Prop :=
  (should_process_entity hass self entity_entry).1 = Ok true
  /\ autodiscover_model hass (Some entity_entry) = Some model_info
  /\ truthy (mi_manufacturer model_info) = true
  /\ mi_model model_info <> ""
  /\ create_source_entity hass (entity_id entity_entry) = Ok source_entity
  /\ is_wled_light model_info entity_entry = false.

(** The identity of an entry is usable: resolved, with a truthy
    manufacturer and a truthy model (the guard of [start_discovery]). *)
Definition identity_usable {tables : Tables} (hass : HomeAssistant) (entity_entry : RegistryEntry)
  : bool :=
  match autodiscover_model hass (Some entity_entry) with
  | Some model_info =>
      truthy (mi_manufacturer model_info) && negb (String.eqb (mi_model model_info) "")
  | None => false
  end.

(** The record of the vendor-special rule for a source entity and a
    model: the entity, its source entity, the calculation-mode marker
    and the manufacturer/model pair, and no profile. *)
Definition wled_record {tables : Tables} (source_entity : SourceEntity) (model : string)
  : effect :=
  CreateFlow DOMAIN SOURCE_INTEGRATION_DISCOVERY
    (<[CONF_MODEL := DStr model]>
       (<[CONF_MANUFACTURER := DStr MANUFACTURER_WLED]>
          (<[CONF_MODE := DMode WLED]>
             (<[DISCOVERY_SOURCE_ENTITY := DSourceEntity source_entity]>
                (<[CONF_ENTITY_ID := DStr (se_entity_id source_entity)]> ∅))))).

(** The three checks of [should_process_entity] that come before the
    membership test: enabled, a covered domain, not a configuration or
    diagnostic entity. *)
Definition qualifies {tables : Tables} (entry : RegistryEntry) : bool :=
  negb (disabled entry)
  && bool_decide (domain entry ∈ (map_to_list DEVICE_DOMAINS).*2)
  && negb match entity_category entry with
          | Some CONFIG | Some DIAGNOSTIC => true
          | _ => false
          end.

(** How a turn ends that calls no collaborator: as the eligibility
    filter ends. An entry that passes the three checks asks for the
    index, and the filter raises what loading the index raises; any
    other entry ends its turn normally. *)
Definition filter_outcome {tables : Tables}
    (hass : HomeAssistant) (self : DiscoveryManager) (entry : RegistryEntry) : result unit :=
  if qualifies entry then result_map (fun _ => tt) (index_of hass self) else Ok tt.

(** The source entity a record names. *)
Definition effect_source_entity (e : effect) : option SourceEntity :=
  match e with
  | CreateFlow _ _ data | LoadPlatform _ _ data =>
      match data !! DISCOVERY_SOURCE_ENTITY with
      | Some (DSourceEntity s) => Some s
      | _ => None
      end
  end.

(** ** Example hosts *)

Module Examples.

#[export] Instance tables : Tables := {|
  MANUFACTURER_ALIASES := {[ "Ikea" := "IKEA" ]};
  MANUFACTURER_WLED := "WLED";
  DEVICE_DOMAINS := {[ "light" := "light"; "smart_switch" := "switch" ]};
|}.

Definition light (id device name : string) : RegistryEntry :=
  {| entity_id := id; domain := "light"; disabled := false; entity_category := None;
     device_id := Some device; original_name := Some name |}.

Definition registry_devices : gmap string DeviceEntry :=
  {[ "hue" := {| dev_manufacturer := Some "Signify"; dev_model := Some "LCT001" |};
     "acme" := {| dev_manufacturer := Some "Acme"; dev_model := Some "X1" |};
     "strip" := {| dev_manufacturer := Some "WLED"; dev_model := Some "FOSS" |};
     "ikea" := {| dev_manufacturer := Some "Ikea"; dev_model := Some "TRADFRI/bulb" |};
     "anon" := {| dev_manufacturer := None; dev_model := Some "X/1" |} ]}.

Definition lct001 : PowerProfile :=
  {| pp_manufacturer := "signify"; pp_model := "LCT001";
     is_additional_configuration_required := false;
     supported_domains := ["light"] |}.

(** A library that knows one model, and fails to read the profile of
    another manufacturer. *)
Definition library (model_info : ModelInfo) : result PowerProfile :=
  match mi_manufacturer model_info with
  | Some m =>
      if String.eqb m "Signify" && String.eqb (mi_model model_info) "LCT001" then Ok lct001
      else if String.eqb m "Acme" then Raise (OtherError "profile unreadable")
      else Raise ModelNotSupported
  | None => Raise ModelNotSupported
  end.

Definition source_entity (id : string) : SourceEntity :=
  {| se_entity_id := id; se_domain := "light"; se_unique_id := Some ("uid_" +:+ id) |}.

Definition host (registry : list RegistryEntry) (entries : list ConfigEntry)
    (sensor : option yaml) : HomeAssistant :=
  {| entities := registry;
     devices := registry_devices;
     config_entries := entries;
     ha_config_sensor := sensor;
     create_source_entity := fun id => Ok (source_entity id);
     get_power_profile := library |}.

Definition hue : RegistryEntry := light "light.hue" "hue" "Hue bulb".
Definition hue2 : RegistryEntry := light "light.hue2" "hue" "Hue bulb 2".
Definition acme : RegistryEntry := light "light.acme" "acme" "Acme lamp".
Definition strip : RegistryEntry := light "light.strip" "strip" "Living Room Strip".
Definition segment : RegistryEntry := light "light.strip_1" "strip" "Light Strip Segment 1".
(** The long s (U+017F) in UTF-8, and a light whose name has it. *)
Definition long_s : string := String (ascii_of_nat 197) (String (ascii_of_nat 191) EmptyString).
Definition long_s_master : RegistryEntry :=
  light "light.strip_m" "strip" ("Ma" +:+ long_s +:+ "ter strip").
Definition tradfri : RegistryEntry := light "light.tradfri" "ikea" "Bulb".
Definition anon : RegistryEntry := light "light.anon" "anon" "Lamp".

Definition user_entry (id : string) : ConfigEntry :=
  {| ce_unique_id := None; ce_source := "user"; ce_entity_id := Some id |}.
Definition discovered_entry (id : string) : ConfigEntry :=
  {| ce_unique_id := Some ("uid_" +:+ id); ce_source := "integration_discovery";
     ce_entity_id := Some id |}.

(** The records the sweep hands to the host for a library match. *)
Definition library_records (id : string) : list effect :=
  [ CreateFlow "powercalc" "integration_discovery"
      (<["model" := DStr "LCT001"]>
         (<["manufacturer" := DStr "signify"]>
            (<["power_profile" := DPowerProfile lct001]>
               (<["source_entity" := DSourceEntity (source_entity id)]>
                  (<["entity_id" := DStr id]> ∅)))));
    LoadPlatform "sensor" "powercalc"
      (<["discovery_type" := DType LIBRARY]>
         (<["power_profile" := DPowerProfile lct001]>
            (<["source_entity" := DSourceEntity (source_entity id)]>
               (<["entity_id" := DStr id]> ∅)))) ].

(** A platform block whose "entity_id" holds a list of identifiers. *)
Definition block_with_list : yaml :=
  YDict [("platform", YStr "powercalc");
         ("entity_id", YList [YStr "light.hue"; YStr "light.other"])].

Definition block_with_string : yaml :=
  YDict [("platform", YStr "powercalc");
         ("entities", YList [YDict [("entity_id", YStr "light.hue")]])].

(** A platform block with an identifier the scan returns and, in a
    sequence inside a sequence, an occurrence it does not reach. *)
Definition block_with_unreached : yaml :=
  YDict [("platform", YStr "powercalc");
         ("entity_id", YStr "light.hue");
         ("groups", YList [YList [YDict [("entity_id", YStr "light.other")]]])].

End Examples.

(** A host whose devices lack a model or a manufacturer name. *)
Module MoreExamples.

Definition registry_devices : gmap string DeviceEntry :=
  {[ "nomodel" := {| dev_manufacturer := Some "Acme"; dev_model := None |};
     "hue" := {| dev_manufacturer := Some "Signify"; dev_model := Some "LCT001" |} ]}.

Definition host (registry : list RegistryEntry) (entries : list ConfigEntry) : HomeAssistant :=
  {| entities := registry;
     devices := registry_devices;
     config_entries := entries;
     ha_config_sensor := None;
     create_source_entity :=
       fun id => Ok {| se_entity_id := id; se_domain := "light"; se_unique_id := None |};
     get_power_profile := Examples.library |}.

Definition nomodel : RegistryEntry := Examples.light "light.nomodel" "nomodel" "Lamp".
Definition disabled_hue : RegistryEntry :=
  {| entity_id := "light.off"; domain := "light"; disabled := true; entity_category := None;
     device_id := Some "hue"; original_name := Some "Off" |}.
Definition diagnostic_hue : RegistryEntry :=
  {| entity_id := "light.diag"; domain := "light"; disabled := false;
     entity_category := Some DIAGNOSTIC;
     device_id := Some "hue"; original_name := Some "Diag" |}.
Definition yaml_entry : ConfigEntry :=
  {| ce_unique_id := None; ce_source := "import"; ce_entity_id := None |}.

End MoreExamples.

(** * Properties *)

(** ** The recursive scan *)

Lemma no_occurrence_nil v : no_occurrence v = true -> entity_id_occurrences v = [].
Proof. unfold no_occurrence. now destruct (entity_id_occurrences v). Qed.

(** The induction carries, for a sequence, the statement for its items:
    the scan looks one level into a sequence without calling itself on
    the sequence. *)
Definition scan_agrees (v : yaml) : Prop :=
  occurrences_in_reach v = true -> find_entity_ids v = entity_id_occurrences v.

Lemma scan_agrees_items v :
  scan_agrees v /\ match v with YList l => Forall scan_agrees l | _ => True end.
Proof.
  induction v as [| | | |l IH|d IH] using yaml_rect_nested;
    try (split; [intros H; apply no_occurrence_nil in H; now rewrite H | exact I]).
  - split.
    + intros H. apply no_occurrence_nil in H. now rewrite H.
    + eapply Forall_impl; [exact IH|]. now intros x [Hx _].
  - split; [|exact I]. unfold scan_agrees.
    cbn [occurrences_in_reach find_entity_ids entity_id_occurrences].
    induction IH as [|[key value] d [IHv IHl] _ IHd]; [reflexivity|].
    cbn [forallb flat_map]. intros [Hv Hd]%andb_prop.
    rewrite (IHd Hd). f_equal. cbn [snd] in IHv, IHl.
    destruct (String.eqb key "entity_id").
    + now rewrite (no_occurrence_nil _ Hv).
    + destruct value as [| | | |l|d']; try reflexivity.
      * cbn [entity_id_occurrences app]. clear IHv.
        induction IHl as [|item l Hitem _ IHl]; [reflexivity|].
        cbn [forallb flat_map] in *. apply andb_prop in Hv as [Hi Hl].
        rewrite (IHl Hl). f_equal.
        destruct item; try (now rewrite (no_occurrence_nil _ Hi)).
        now apply Hitem.
      * cbn [app]. now apply IHv.
Qed.

Lemma find_entity_ids_reach v :
  occurrences_in_reach v = true -> find_entity_ids v = entity_id_occurrences v.
Proof. apply scan_agrees_items. Qed.

Lemma find_entity_ids_sublist v :
  find_entity_ids v `sublist_of` entity_id_occurrences v
  /\ match v with
     | YList l => Forall (fun x => find_entity_ids x `sublist_of` entity_id_occurrences x) l
     | _ => True
     end.
Proof.
  induction v as [| | | |l IH|d IH] using yaml_rect_nested;
    try (split; [apply sublist_nil_l | exact I]).
  - split; [apply sublist_nil_l|].
    eapply Forall_impl; [exact IH|]. now intros x [Hx _].
  - split; [|exact I].
    cbn [find_entity_ids entity_id_occurrences].
    induction IH as [|[key value] d [IHv IHl] _ IHd]; [constructor|].
    cbn [flat_map snd] in *. apply sublist_app; [|exact IHd].
    destruct (String.eqb key "entity_id").
    + apply sublist_inserts_r. reflexivity.
    + cbn [app]. destruct value as [| | | |l|d']; try apply sublist_nil_l.
      * cbn [entity_id_occurrences]. clear IHv.
        induction IHl as [|item l Hitem _ IHl]; [constructor|].
        cbn [flat_map]. apply sublist_app; [|exact IHl].
        destruct item; try apply sublist_nil_l. exact Hitem.
      * exact IHv.
Qed.

Lemma no_occurrence_false v :
  no_occurrence v = false -> (0 < length (entity_id_occurrences v))%nat.
Proof. unfold no_occurrence. destruct (entity_id_occurrences v); [discriminate|]. cbn. lia. Qed.

Definition scan_misses (v : yaml) : Prop :=
  occurrences_in_reach v = false ->
  (length (find_entity_ids v) < length (entity_id_occurrences v))%nat.

Lemma scan_misses_items v :
  scan_misses v /\ match v with YList l => Forall scan_misses l | _ => True end.
Proof.
  induction v as [| | | |l IH|d IH] using yaml_rect_nested;
    try (split; [intros H; now apply no_occurrence_false in H | exact I]).
  - split; [intros H; now apply no_occurrence_false in H|].
    eapply Forall_impl; [exact IH|]. now intros x [Hx _].
  - split; [|exact I]. unfold scan_misses.
    cbn [occurrences_in_reach find_entity_ids entity_id_occurrences].
    induction IH as [|[key value] d [IHv IHl] _ IHd]; [discriminate|].
    cbn [forallb flat_map snd] in *. rewrite !length_app.
    pose proof (sublist_length _ _ (proj1 (find_entity_ids_sublist (YDict d)))) as Hd.
    cbn [find_entity_ids entity_id_occurrences] in Hd.
    pose proof (sublist_length _ _ (proj1 (find_entity_ids_sublist (YDict [(key, value)])))) as Hkv.
    cbn [find_entity_ids entity_id_occurrences flat_map] in Hkv.
    rewrite !app_nil_r, ?length_app in Hkv.
    intros [Hv|Hrest]%andb_false_iff; [|specialize (IHd Hrest); lia].
    enough (length (if String.eqb key "entity_id" then [value]
                    else match value with
                         | YDict _ => find_entity_ids value
                         | YList l =>
                             flat_map (fun item => match item with
                                                   | YDict _ => find_entity_ids item
                                                   | _ => []
                                                   end) l
                         | _ => []
                         end)
            < length (if String.eqb key "entity_id" then [value] else [])
              + length (entity_id_occurrences value))%nat by lia.
    clear Hkv Hd IHd.
    destruct (String.eqb key "entity_id").
    + apply no_occurrence_false in Hv. cbn. lia.
    + cbn [app]. destruct value as [| | | |l|d']; try discriminate.
      * cbn [entity_id_occurrences]. clear IHv.
        induction IHl as [|item l Hitem _ IHl]; [discriminate|].
        cbn [forallb flat_map] in *. rewrite !length_app.
        pose proof (sublist_length _ _
                      (proj1 (find_entity_ids_sublist (YDict [("k", YList l)])))) as Hl.
        cbn in Hl. rewrite !app_nil_r in Hl.
        pose proof (sublist_length _ _
                      (proj1 (find_entity_ids_sublist (YDict [("k", YList [item])])))) as Hi.
        cbn in Hi. rewrite !app_nil_r in Hi.
        apply andb_false_iff in Hv as [Hv|Hv]; [|specialize (IHl Hv); lia].
        enough (length (match item with YDict _ => find_entity_ids item | _ => [] end)
                < length (entity_id_occurrences item))%nat by lia.
        destruct item; try (now apply no_occurrence_false in Hv).
        now apply Hitem.
      * now apply IHv.
Qed.

(** X16: the scan never returns anything but values keyed "entity_id",
    in the order of the tree, and it returns all of them, each once (the
    same multiset), exactly for the trees whose occurrences all lie in
    reach of the scan: not below the value of another "entity_id" key
    and not in an item of a sequence that is not a mapping. *)
Theorem find_entity_ids_exact_iff_in_reach (d : list (string * yaml)) :
  _find_entity_ids_in_yaml_config d `sublist_of` entity_id_occurrences (YDict d)
  /\ (Permutation (_find_entity_ids_in_yaml_config d) (entity_id_occurrences (YDict d))
      <-> occurrences_in_reach (YDict d) = true).
Proof.
  unfold _find_entity_ids_in_yaml_config. split.
  - apply find_entity_ids_sublist.
  - split.
    + intros Hperm. apply Permutation_length in Hperm.
      destruct (occurrences_in_reach (YDict d)) eqn:Hreach; [reflexivity|].
      apply scan_misses_items in Hreach. lia.
    + intros Hreach. now rewrite (find_entity_ids_reach _ Hreach).
Qed.

(** C4 fails in the code: for the block
    [{"entities": [[{"entity_id": "light.a"}]]}] the scan returns
    nothing, while the tree holds one occurrence of the key, in a
    mapping that is an item of a sequence inside a sequence. The loop
    descends into the items of a sequence only when they are mappings,
    although the function is documented to search all mappings. *)
Lemma find_entity_ids_misses_occurrences :
  let nested := [("entities", YList [YList [YDict [("entity_id", YStr "light.a")]]])] in
  _find_entity_ids_in_yaml_config nested = []
  /\ entity_id_occurrences (YDict nested) = [YStr "light.a"]
  /\ occurrences_in_reach (YDict nested) = false
  /\ ~ Permutation (_find_entity_ids_in_yaml_config nested)
         (entity_id_occurrences (YDict nested)).
Proof.
  cbv zeta. repeat split; try reflexivity.
  intros H. apply Permutation_length in H. discriminate H.
Qed.

(** ** The index of manually configured entities *)

Lemma index_truthy_default (index : option (list yaml)) :
  index_truthy index = false -> default [] index = [].
Proof. now destruct index as [[|]|]. Qed.

(** A membership test answers from [index_of], raises what [index_of]
    raises, and leaves it as it was. *)
Lemma is_user_configured_index hass self id :
  (_is_user_configured hass self id).1 = result_map (entity_id_in id) (index_of hass self)
  /\ index_of hass (_is_user_configured hass self id).2 = index_of hass self.
Proof.
  unfold _is_user_configured, index_of.
  destruct (index_truthy (manually_configured_entities self)) eqn:Ht; cbn.
  - now rewrite Ht.
  - destruct (_load_manually_configured_entities hass) as [index|e] eqn:Hload; cbn.
    + split; [reflexivity|]. now destruct index.
    + now rewrite Ht.
Qed.

Section sweep.

Context {tables : Tables}.

(** The eligibility filter computes [isCandidate] over [index_of]; the
    index is asked for, and its exception raised, only for an entry that
    passes the three checks before the membership test. *)
Lemma should_process_entity_index hass self entry :
  (should_process_entity hass self entry).1
  = (if qualifies entry
     then result_map (fun index => isCandidate index entry) (index_of hass self)
     else Ok false)
  /\ index_of hass (should_process_entity hass self entry).2 = index_of hass self.
Proof.
  unfold should_process_entity, isCandidate, qualifies.
  destruct (disabled entry); [done|].
  destruct (bool_decide _); [|done].
  destruct (match entity_category entry with
            | Some CONFIG | Some DIAGNOSTIC => true | _ => false end); [done|].
  destruct (is_user_configured_index hass self (entity_id entry)) as [H1 H2].
  destruct (_is_user_configured hass self (entity_id entry)) as [r self'].
  cbn [fst snd] in H1, H2. subst r.
  destruct (index_of hass self) as [index|e]; cbn; [|done].
  now destruct (entity_id_in (entity_id entry) index).
Qed.

Lemma should_process_entity_ok hass self entry index :
  index_of hass self = Ok index ->
  (should_process_entity hass self entry).1 = Ok (isCandidate index entry).
Proof.
  intros Hidx. destruct (should_process_entity_index hass self entry) as [-> _].
  rewrite Hidx. cbn [result_map].
  change (isCandidate index entry)
    with (qualifies entry && negb (entity_id_in (entity_id entry) index)).
  now destruct (qualifies entry).
Qed.

(** What a turn of the loop hands to the host and whether it raises
    depend on the manager through [index_of] only, and the turn leaves
    [index_of] as it was. *)
Lemma process_entity_index hass s1 s2 entry :
  index_of hass s1 = index_of hass s2 ->
  (process_entity hass s1 entry).1.1 = (process_entity hass s2 entry).1.1
  /\ (process_entity hass s1 entry).2 = (process_entity hass s2 entry).2.
Proof.
  intros Hidx. unfold process_entity.
  destruct (should_process_entity_index hass s1 entry) as [H1 _].
  destruct (should_process_entity_index hass s2 entry) as [H2 _].
  rewrite Hidx in H1. rewrite <- H2 in H1. clear H2.
  destruct (should_process_entity hass s1 entry) as [p1 s1'].
  destruct (should_process_entity hass s2 entry) as [p2 s2'].
  cbn in H1. subst p2.
  destruct p1 as [[]|e]; cbn; [|done|done].
  repeat case_match; simplify_eq; done.
Qed.

Lemma process_entity_index_kept hass self entry :
  index_of hass (process_entity hass self entry).1.2 = index_of hass self.
Proof.
  unfold process_entity.
  destruct (should_process_entity_index hass self entry) as [_ H].
  destruct (should_process_entity hass self entry) as [p s'].
  cbn in H. repeat case_match; simplify_eq; done.
Qed.

Lemma discovery_loop_index hass entries : forall s1 s2,
  index_of hass s1 = index_of hass s2 ->
  (discovery_loop hass s1 entries).1.1 = (discovery_loop hass s2 entries).1.1
  /\ (discovery_loop hass s1 entries).2 = (discovery_loop hass s2 entries).2.
Proof.
  induction entries as [|entry rest IH]; intros s1 s2 Hidx; [done|].
  cbn [discovery_loop].
  destruct (process_entity_index hass s1 s2 entry Hidx) as [He Hr].
  pose proof (process_entity_index_kept hass s1 entry) as K1.
  pose proof (process_entity_index_kept hass s2 entry) as K2.
  destruct (process_entity hass s1 entry) as [[e1 s1'] r1].
  destruct (process_entity hass s2 entry) as [[e2 s2'] r2].
  cbn in He, Hr, K1, K2. subst e2 r2.
  destruct r1 as [[]|e]; [|done].
  destruct (IH s1' s2') as [He' Hr']; [congruence|].
  destruct (discovery_loop hass s1' rest) as [[? ?] ?].
  destruct (discovery_loop hass s2' rest) as [[? ?] ?].
  cbn in *. now subst.
Qed.

Lemma discovery_loop_index_kept hass entries : forall self,
  index_of hass (discovery_loop hass self entries).1.2 = index_of hass self.
Proof.
  induction entries as [|entry rest IH]; intros self; [done|].
  cbn [discovery_loop].
  pose proof (process_entity_index_kept hass self entry) as K.
  destruct (process_entity hass self entry) as [[e s'] r].
  cbn in K. destruct r as [[]|x]; [|done].
  specialize (IH s').
  destruct (discovery_loop hass s' rest) as [[? ?] ?].
  cbn in *. congruence.
Qed.

End sweep.

(** ** The dedup check *)

(** C2: a configuration entry whose unique id is the source entity's
    key, or that key prefixed with "pc_", makes [_init_entity_discovery]
    dispatch nothing, neither a discovery flow nor a platform load,
    whatever the profile and the extra data. *)
Theorem init_entity_discovery_dedup
    (hass : HomeAssistant) (source_entity : SourceEntity)
    (power_profile : option PowerProfile) (extra : option (gmap string dvalue))
    (entry : ConfigEntry) :
  In entry (config_entries hass) ->
  ce_unique_id entry = se_unique_id source_entity
  \/ ce_unique_id entry = Some ("pc_" +:+ py_str (se_unique_id source_entity)) ->
  _init_entity_discovery hass source_entity power_profile extra = [].
Proof.
  intros Hin Hid. unfold _init_entity_discovery.
  assert (Hex : In entry (List.filter (is_existing_entry source_entity) (config_entries hass))).
  { apply filter_In. split; [exact Hin|]. unfold is_existing_entry.
    apply orb_true_iff. destruct Hid as [H|H]; [left|right]; now apply bool_decide_eq_true. }
  now destruct (List.filter _ _).
Qed.

(** Without such an entry the flow is dispatched. *)
Lemma init_entity_discovery_new hass source_entity power_profile extra :
  Forall (fun entry => is_existing_entry source_entity entry = false) (config_entries hass) ->
  exists data rest,
    _init_entity_discovery hass source_entity power_profile extra
    = CreateFlow DOMAIN SOURCE_INTEGRATION_DISCOVERY data :: rest.
Proof.
  intros Hall. unfold _init_entity_discovery.
  assert (Hnil : List.filter (is_existing_entry source_entity) (config_entries hass) = []).
  { induction Hall as [|entry l H _ IH]; [reflexivity|]. cbn. now rewrite H. }
  rewrite Hnil. eauto.
Qed.

Section claims.

Context {tables : Tables}.

(** Entries whose turn hands nothing to the host and does not raise
    can be taken out of the registry without changing the sweep. *)
Lemma discovery_loop_skip hass (skip : RegistryEntry -> bool) (index : result (list yaml)) :
  (forall entry self,
      index_of hass self = index -> skip entry = true ->
      (process_entity hass self entry).1.1 = []
      /\ (process_entity hass self entry).2 = Ok tt) ->
  forall entries self,
    index_of hass self = index ->
    (discovery_loop hass self entries).1.1
    = (discovery_loop hass self (List.filter (fun e => negb (skip e)) entries)).1.1
    /\ (discovery_loop hass self entries).2
       = (discovery_loop hass self (List.filter (fun e => negb (skip e)) entries)).2.
Proof.
  intros Hskip. induction entries as [|entry rest IH]; intros self Hidx; [done|].
  cbn [discovery_loop List.filter].
  pose proof (process_entity_index_kept hass self entry) as K.
  destruct (skip entry) eqn:Hs; cbn [negb].
  - destruct (Hskip entry self Hidx Hs) as [He Hr].
    destruct (process_entity hass self entry) as [[e s'] r].
    cbn in He, Hr, K. subst e r.
    destruct (IH s') as [IHe IHr]; [congruence|].
    destruct (discovery_loop_index hass
                (List.filter (fun e => negb (skip e)) rest) s' self) as [Ie Ir];
      [congruence|].
    destruct (discovery_loop hass s' rest) as [[? ?] ?].
    cbn in *. split; congruence.
  - cbn [discovery_loop].
    destruct (process_entity hass self entry) as [[e s'] r].
    cbn in K. destruct r as [[]|x]; [|done].
    destruct (IH s') as [IHe IHr]; [congruence|].
    destruct (discovery_loop hass s' rest) as [[? ?] ?].
    destruct (discovery_loop hass s' _) as [[? ?] ?].
    cbn in *. split; congruence.
Qed.

(** ** Running the sweep again *)

(** C1, as the code has it: with the host unchanged, a second sweep of
    the same manager hands the host exactly the records of the first
    and ends the same way; the sweep keeps no memory of what it
    emitted. So the second sweep emits zero records exactly when the
    first one did. *)
Theorem second_sweep_repeats_first (hass : HomeAssistant) (self : DiscoveryManager) :
  let first := start_discovery hass self in
  let second := start_discovery hass first.1.2 in
  second.1.1 = first.1.1
  /\ second.2 = first.2
  /\ (second.1.1 = [] <-> first.1.1 = []).
Proof.
  cbv zeta. unfold start_discovery.
  destruct (discovery_loop_index hass (entities hass)
              (discovery_loop hass self (entities hass)).1.2 self) as [He Hr].
  { apply discovery_loop_index_kept. }
  rewrite He. repeat split; auto.
Qed.

(** ** Entities the user has set up by hand *)

Lemma yaml_eq_str_true x id : yaml_eq_str x id = true <-> x = YStr id.
Proof.
  destruct x; cbn; try (split; [discriminate|congruence]).
  rewrite String.eqb_eq. split; congruence.
Qed.

Lemma entity_id_in_In id index : entity_id_in id index = true <-> In (YStr id) index.
Proof.
  unfold entity_id_in. rewrite existsb_exists. split.
  - intros (x & Hin & Heq). apply yaml_eq_str_true in Heq. now subst.
  - intros Hin. exists (YStr id). split; [exact Hin|]. now apply yaml_eq_str_true.
Qed.

(** A manager whose index cannot be loaded: a turn dispatches nothing,
    and raises the exception of the load when the entry gets as far as
    the membership test. *)
Lemma process_entity_raise hass self entry e :
  index_of hass self = Raise e ->
  (process_entity hass self entry).1.1 = []
  /\ (process_entity hass self entry).2 = (if qualifies entry then Raise e else Ok tt).
Proof.
  intros Hidx. unfold process_entity.
  destruct (should_process_entity_index hass self entry) as [H _].
  rewrite Hidx in H. cbn [result_map] in H.
  destruct (should_process_entity hass self entry) as [p s'].
  cbn [fst] in H. subst p. now destruct (qualifies entry).
Qed.

Lemma discovery_loop_raise hass entries e : forall self,
  index_of hass self = Raise e ->
  (discovery_loop hass self entries).1.1 = [].
Proof.
  induction entries as [|entry rest IH]; intros self Hidx; [done|].
  cbn [discovery_loop].
  destruct (process_entity_raise hass self entry e Hidx) as [He _].
  pose proof (process_entity_index_kept hass self entry) as K.
  destruct (process_entity hass self entry) as [[em s'] r].
  cbn [fst snd] in He, K. subst em.
  destruct r as [[]|x]; [|done].
  specialize (IH s'). destruct (discovery_loop hass s' rest) as [[? ?] ?].
  cbn [fst snd] in *. cbn. apply IH. congruence.
Qed.

Lemma filter_outcome_ok hass self entry index :
  index_of hass self = Ok index -> filter_outcome hass self entry = Ok tt.
Proof. intros Hidx. unfold filter_outcome. rewrite Hidx. now destruct (qualifies entry). Qed.

Lemma manually_configured_loaded hass id index :
  manually_configured hass id ->
  _load_manually_configured_entities hass = Ok index ->
  In (YStr id) index.
Proof.
  unfold _load_manually_configured_entities.
  intros [(items & block & Hitems & Hin & Hplat & Hid)|(entry & Hin & Hsrc & Hid)].
  - rewrite Hitems. intros [= <-]. apply in_or_app. left.
    apply in_flat_map. exists block. split; [|exact Hid].
    apply filter_In. now split.
  - destruct (sensor_items hass) as [items|e]; [|discriminate].
    intros [= <-]. apply in_or_app. right.
    apply in_map_iff. exists entry. split.
    + unfold entry_entity_id. now rewrite Hid.
    + apply filter_In. split; [exact Hin|]. now apply String.eqb_eq.
Qed.

Lemma process_entity_not_candidate hass self entry index :
  index_of hass self = Ok index ->
  isCandidate index entry = false ->
  (process_entity hass self entry).1.1 = [] /\ (process_entity hass self entry).2 = Ok tt.
Proof.
  intros Hidx Hc. unfold process_entity.
  pose proof (should_process_entity_ok hass self entry index Hidx) as H.
  rewrite Hc in H.
  destruct (should_process_entity hass self entry) as [p s'].
  cbn [fst] in H. now subst p.
Qed.

Lemma manually_configured_turn hass id self entry :
  manually_configured hass id ->
  index_of hass self = _load_manually_configured_entities hass ->
  entity_id entry = id ->
  (process_entity hass self entry).1.1 = []
  /\ (process_entity hass self entry).2 = filter_outcome hass self entry.
Proof.
  intros Hman Hidx Hid.
  destruct (_load_manually_configured_entities hass) as [index|e] eqn:Hload.
  - rewrite (filter_outcome_ok hass self entry index Hidx).
    apply (process_entity_not_candidate hass self entry index Hidx).
    apply (manually_configured_loaded hass id index Hman), entity_id_in_In in Hload.
    unfold isCandidate. rewrite Hid, Hload. cbn. apply andb_false_r.
  - unfold filter_outcome. rewrite Hidx. cbn [result_map].
    apply (process_entity_raise hass self entry e Hidx).
Qed.

(** C3, as the code has it: an entity set up by hand, its identifier
    being a string the scan returns for a powercalc platform block that
    is an item of the sensor section, or stored in a configuration entry
    the user created, gets no record from a manager whose index is the
    one of the host, as it is for a new manager: its turn of the loop
    hands nothing to the host and ends as the eligibility filter ends,
    and the sweep emits what it would emit with the entity taken out of
    the registry. Membership in the index is equality with a string
    element, so an identifier inside a list-valued "entity_id" is not
    recognised. *)
Theorem manually_configured_not_offered (hass : HomeAssistant) (id : string) :
  manually_configured hass id ->
  (forall self entry,
      index_of hass self = _load_manually_configured_entities hass ->
      entity_id entry = id ->
      (process_entity hass self entry).1.1 = []
      /\ (process_entity hass self entry).2 = filter_outcome hass self entry)
  /\ (start_discovery hass new_manager).1.1
     = (discovery_loop hass new_manager
          (List.filter (fun e => negb (String.eqb (entity_id e) id)) (entities hass))).1.1
  /\ (forall index, entity_id_in id index = true <-> In (YStr id) index).
Proof.
  intros Hman.
  split; [intros self entry; now apply manually_configured_turn|].
  split; [|apply entity_id_in_In].
  unfold start_discovery.
  destruct (_load_manually_configured_entities hass) as [index|e] eqn:Hload.
  - apply (discovery_loop_skip hass (fun e => String.eqb (entity_id e) id) (Ok index));
      [|exact Hload].
    intros entry self Hidx Hs.
    rewrite <- (filter_outcome_ok hass self entry index Hidx).
    apply (manually_configured_turn hass id); [exact Hman|congruence|].
    now apply String.eqb_eq.
  - now rewrite !(discovery_loop_raise hass _ e new_manager Hload).
Qed.

(** ** The guard on the resolved identity *)

Lemma process_entity_unusable hass self entry :
  identity_usable hass entry = false ->
  (process_entity hass self entry).1.1 = []
  /\ (process_entity hass self entry).2 = filter_outcome hass self entry.
Proof.
  unfold identity_usable, process_entity, filter_outcome. intros Hu.
  destruct (should_process_entity_index hass self entry) as [H _].
  destruct (should_process_entity hass self entry) as [p s'].
  cbn [fst] in H. subst p.
  destruct (qualifies entry); [|done].
  destruct (index_of hass self) as [index|e]; cbn [result_map]; [|done].
  destruct (isCandidate index entry); [|done].
  destruct (autodiscover_model hass (Some entry)) as [mi|]; [|done].
  apply andb_false_iff in Hu as [Hu|Hu].
  - now rewrite Hu.
  - apply negb_false_iff in Hu. rewrite Hu. now rewrite orb_true_r.
Qed.

(** C10: when the resolved identity is null, or its manufacturer is
    [None] or empty, or its model is empty, the entity's turn of the
    loop dispatches nothing and raises nothing of its own: it ends as
    the eligibility filter before it ends, and the loop goes on; the
    sweep emits what it emits over the entries with a usable identity.
    A device whose manufacturer is [None] does pass
    [has_manufacturer_and_model_information]. *)
Theorem unusable_identity_not_offered
    (hass : HomeAssistant) (self : DiscoveryManager) (entry : RegistryEntry) :
  autodiscover_model hass (Some entry) = None
  \/ (exists model_info,
        autodiscover_model hass (Some entry) = Some model_info
        /\ (truthy (mi_manufacturer model_info) = false \/ mi_model model_info = "")) ->
  (process_entity hass self entry).1.1 = []
  /\ (process_entity hass self entry).2 = filter_outcome hass self entry
  /\ (forall index, index_of hass self = Ok index -> (process_entity hass self entry).2 = Ok tt)
  /\ (start_discovery hass self).1.1
     = (discovery_loop hass self (List.filter (identity_usable hass) (entities hass))).1.1
  /\ (forall device,
        device_registry_async_get hass (device_id entry) = Some device ->
        dev_manufacturer device = None ->
        dev_model device <> Some "" ->
        has_manufacturer_and_model_information hass entry = true).
Proof.
  intros H.
  assert (Hu : identity_usable hass entry = false).
  { unfold identity_usable. destruct H as [->|(mi & -> & [Hm|Hm])]; [done| |].
    - now rewrite Hm.
    - rewrite Hm. apply andb_false_r. }
  destruct (process_entity_unusable hass self entry Hu) as [He Hr].
  split; [exact He|]. split; [exact Hr|]. split; [|split].
  - intros index Hidx. rewrite Hr. now apply (filter_outcome_ok hass self entry index).
  - unfold start_discovery.
    destruct (index_of hass self) as [index|e] eqn:Hidx.
    + destruct (discovery_loop_skip hass (fun e => negb (identity_usable hass e))
                  (Ok index)) with (entries := entities hass) (self := self)
        as [Hsk _]; [|exact Hidx|].
      * intros e s Hs Hskip.
        rewrite <- (filter_outcome_ok hass s e index Hs).
        apply process_entity_unusable. now apply negb_true_iff.
      * rewrite Hsk. do 3 f_equal. apply filter_ext. intros a. apply negb_involutive.
    + now rewrite !(discovery_loop_raise hass _ e self Hidx).
  - intros device Hdev Hman Hmod. unfold has_manufacturer_and_model_information.
    rewrite Hdev, Hman. cbn.
    destruct (dev_model device) as [[|c s]|]; [congruence|done|done].
Qed.

(** ** The life cycle of the index *)

Lemma is_user_configured_cached hass self id :
  index_truthy (manually_configured_entities self) = true ->
  _is_user_configured hass self id
  = (Ok (entity_id_in id (default [] (manually_configured_entities self))), self).
Proof. intros Ht. unfold _is_user_configured. now rewrite Ht. Qed.

Lemma is_user_configured_builds hass self id index :
  index_truthy (manually_configured_entities self) = false ->
  _load_manually_configured_entities hass = Ok index ->
  _is_user_configured hass self id
  = (Ok (entity_id_in id index),
     {| manually_configured_entities := Some index;
        index_builds := S (index_builds self) |}).
Proof. intros Ht Hload. unfold _is_user_configured. now rewrite Ht, Hload. Qed.

Lemma is_user_configured_raises hass self id e :
  index_truthy (manually_configured_entities self) = false ->
  _load_manually_configured_entities hass = Raise e ->
  _is_user_configured hass self id
  = (Raise e,
     {| manually_configured_entities := manually_configured_entities self;
        index_builds := S (index_builds self) |}).
Proof. intros Ht Hload. unfold _is_user_configured. now rewrite Ht, Hload. Qed.

Lemma process_entity_cached hass self entry :
  index_truthy (manually_configured_entities self) = true ->
  (process_entity hass self entry).1.2 = self.
Proof.
  intros Ht. unfold process_entity, should_process_entity.
  rewrite (is_user_configured_cached hass self (entity_id entry) Ht).
  repeat case_match; simplify_eq; done.
Qed.

Lemma discovery_loop_cached hass entries self :
  index_truthy (manually_configured_entities self) = true ->
  (discovery_loop hass self entries).1.2 = self.
Proof.
  intros Ht. induction entries as [|entry rest IH]; [done|].
  cbn [discovery_loop].
  pose proof (process_entity_cached hass self entry Ht) as K.
  destruct (process_entity hass self entry) as [[e s'] r].
  cbn in K. subst s'. destruct r as [[]|x]; [|done].
  destruct (discovery_loop hass self rest) as [[? ?] ?]. now cbn in *.
Qed.

Lemma process_entity_builds hass self entry index :
  index_truthy (manually_configured_entities self) = false ->
  _load_manually_configured_entities hass = Ok index ->
  (process_entity hass self entry).1.2 = self
  \/ (process_entity hass self entry).1.2
     = {| manually_configured_entities := Some index;
          index_builds := S (index_builds self) |}.
Proof.
  intros Ht Hload. unfold process_entity, should_process_entity.
  rewrite (is_user_configured_builds hass self (entity_id entry) index Ht Hload).
  repeat case_match; simplify_eq; auto.
Qed.

Lemma discovery_loop_builds hass entries index : forall self,
  index_truthy (manually_configured_entities self) = false ->
  _load_manually_configured_entities hass = Ok index ->
  index <> [] ->
  (discovery_loop hass self entries).1.2 = self
  \/ (discovery_loop hass self entries).1.2
     = {| manually_configured_entities := Some index;
          index_builds := S (index_builds self) |}.
Proof.
  induction entries as [|entry rest IH]; intros self Ht Hload Hne; [now left|].
  cbn [discovery_loop].
  destruct (process_entity_builds hass self entry index Ht Hload) as [K|K];
    destruct (process_entity hass self entry) as [[e s'] r]; cbn in K; subst s';
    (destruct r as [[]|x]; [|now auto]).
  - destruct (IH self Ht Hload Hne) as [H|H];
      destruct (discovery_loop hass self rest) as [[? ?] ?]; cbn in *; auto.
  - right.
    pose proof (discovery_loop_cached hass rest
                  {| manually_configured_entities := Some index;
                     index_builds := S (index_builds self) |}) as Hc.
    destruct (discovery_loop hass _ rest) as [[? ?] ?]. cbn in *. apply Hc.
    now destruct index.
Qed.

(** C5, as the code has it: a manager that holds no index builds it in
    the first membership test it makes; when the index built is not
    empty, a sweep builds it at most once, and from then on every
    membership test answers from the cached list without building
    again, in that sweep and in every later sweep of the same manager,
    whatever the host has become. *)
Theorem index_built_once_then_reused
    (hass : HomeAssistant) (self : DiscoveryManager) (index : list yaml) :
  index_truthy (manually_configured_entities self) = false ->
  _load_manually_configured_entities hass = Ok index ->
  index <> [] ->
  let built :=
    {| manually_configured_entities := Some index;
       index_builds := S (index_builds self) |} in
  (forall id,
      _is_user_configured hass self id = (Ok (entity_id_in id index), built))
  /\ ((start_discovery hass self).1.2 = self \/ (start_discovery hass self).1.2 = built)
  /\ (forall hass' id,
        _is_user_configured hass' built id = (Ok (entity_id_in id index), built))
  /\ (forall hass', (start_discovery hass' built).1.2 = built).
Proof.
  intros Ht Hload Hne built.
  assert (Hb : index_truthy (manually_configured_entities built) = true).
  { subst built. cbn. now destruct index. }
  repeat split.
  - intros id. now apply is_user_configured_builds.
  - now apply discovery_loop_builds.
  - intros hass' id. now rewrite (is_user_configured_cached hass' built id Hb).
  - intros hass'. now apply discovery_loop_cached.
Qed.

(** ** Errors of the collaborators *)

Lemma process_entity_lookup hass self entry model_info source_entity :
  reaches_lookup hass self entry model_info source_entity ->
  process_entity hass self entry
  = match get_power_profile hass model_info with
    | Raise ModelNotSupported => ([], (should_process_entity hass self entry).2, Ok tt)
    | Raise e => ([], (should_process_entity hass self entry).2, Raise e)
    | Ok power_profile =>
        if negb (is_entity_domain_supported power_profile source_entity)
        then ([], (should_process_entity hass self entry).2, Ok tt)
        else (_init_entity_discovery hass source_entity (Some power_profile) (Some ∅),
              (should_process_entity hass self entry).2, Ok tt)
    end.
Proof.
  intros (Hc & Hmi & Hman & Hmod & Hse & Hw). unfold process_entity.
  destruct (should_process_entity hass self entry) as [p s']. cbn in Hc. subst p.
  cbn [negb snd]. rewrite Hmi, Hman, Hse, Hw.
  apply String.eqb_neq in Hmod. rewrite Hmod. reflexivity.
Qed.

(** C6, as the code has it: of the errors raised during an entity's
    turn only the "model not supported" signal of the library lookup is
    caught: that entity gets no record and the sweep goes on with the
    remaining entries. Any other error of the lookup is not caught: it
    leaves [start_discovery], and the remaining entries are not
    processed. *)
Theorem lookup_error_containment
    (hass : HomeAssistant) (self : DiscoveryManager) (entry : RegistryEntry)
    (rest : list RegistryEntry) (model_info : ModelInfo) (source_entity : SourceEntity)
    (e : exn) :
  reaches_lookup hass self entry model_info source_entity ->
  get_power_profile hass model_info = Raise e ->
  let self' := (should_process_entity hass self entry).2 in
  (e = ModelNotSupported ->
     process_entity hass self entry = ([], self', Ok tt)
     /\ discovery_loop hass self (entry :: rest) = discovery_loop hass self' rest)
  /\ (e <> ModelNotSupported ->
      discovery_loop hass self (entry :: rest) = ([], self', Raise e)).
Proof.
  intros Hreach Hraise self'.
  pose proof (process_entity_lookup hass self entry model_info source_entity Hreach) as Hp.
  rewrite Hraise in Hp. cbn [discovery_loop]. rewrite Hp. subst self'. split.
  - intros ->. split; [reflexivity|].
    now destruct (discovery_loop hass _ rest) as [[? ?] ?].
  - intros Hne. now destruct e.
Qed.

(** An error of the source-entity creation is not caught either. *)
Lemma source_entity_error_propagates hass self entry rest e :
  (should_process_entity hass self entry).1 = Ok true ->
  identity_usable hass entry = true ->
  create_source_entity hass (entity_id entry) = Raise e ->
  discovery_loop hass self (entry :: rest)
  = ([], (should_process_entity hass self entry).2, Raise e).
Proof.
  intros Hc Hu Hse. cbn [discovery_loop]. unfold process_entity, identity_usable in *.
  destruct (should_process_entity hass self entry) as [p s']. cbn in Hc. subst p.
  cbn [negb snd]. destruct (autodiscover_model hass (Some entry)) as [mi|]; [|done].
  apply andb_true_iff in Hu as [Hm Hmod]. rewrite Hm. apply negb_true_iff in Hmod.
  rewrite Hmod, Hse. reflexivity.
Qed.

(** ** The vendor-special rule *)

Lemma init_entity_discovery_wled hass source_entity model_info :
  mi_manufacturer model_info = Some MANUFACTURER_WLED ->
  _init_entity_discovery hass source_entity None (Some (wled_discovery_data model_info))
  = if existsb (is_existing_entry source_entity) (config_entries hass) then []
    else [wled_record source_entity (mi_model model_info)].
Proof.
  intros Hm. unfold _init_entity_discovery, wled_discovery_data, wled_record.
  rewrite Hm. cbn [py_str].
  induction (config_entries hass) as [|entry l IH]; [reflexivity|].
  cbn [List.filter existsb].
  destruct (is_existing_entry source_entity entry); [reflexivity|]. exact IH.
Qed.

Lemma init_entity_discovery_profile hass source_entity power_profile :
  Forall (fun e => is_vendor_special e = false)
    (_init_entity_discovery hass source_entity (Some power_profile) (Some ∅)).
Proof.
  unfold _init_entity_discovery.
  destruct (List.filter _ _); [|constructor].
  constructor; [reflexivity|]. destruct (negb _); repeat constructor.
Qed.

Lemma process_entity_wled hass self entry model_info source_entity :
  (should_process_entity hass self entry).1 = Ok true ->
  autodiscover_model hass (Some entry) = Some model_info ->
  truthy (mi_manufacturer model_info) = true ->
  mi_model model_info <> "" ->
  create_source_entity hass (entity_id entry) = Ok source_entity ->
  is_wled_light model_info entry = true ->
  process_entity hass self entry
  = (_init_entity_discovery hass source_entity None
       (Some (wled_discovery_data model_info)),
     (should_process_entity hass self entry).2, Ok tt).
Proof.
  intros Hc Hmi Hman Hmod Hse Hw. unfold process_entity.
  destruct (should_process_entity hass self entry) as [p s']. cbn in Hc. subst p.
  cbn [negb snd]. rewrite Hmi, Hman, Hse, Hw.
  apply String.eqb_neq in Hmod. rewrite Hmod. reflexivity.
Qed.

(** C7, as the code has it: for a candidate entity with a resolved
    identity and a source entity, whose manufacturer is the vendor
    constant and whose domain is "light": when the pattern
    "master|segment" matches nowhere in the display name, letter case
    ignored as [re.IGNORECASE] ignores it (the long s counts as an s),
    the turn skips the library lookup, whatever the library holds, and
    hands the entity to the dispatch step, which emits the one record
    without profile that carries the calculation-mode marker and the
    manufacturer/model pair, unless the dedup check finds a
    configuration entry for the entity; when the pattern matches, the
    entity gets no vendor-special record. *)
Theorem wled_light_vendor_special
    (hass : HomeAssistant) (self : DiscoveryManager) (entry : RegistryEntry)
    (model_info : ModelInfo) (source_entity : SourceEntity) :
  (should_process_entity hass self entry).1 = Ok true ->
  autodiscover_model hass (Some entry) = Some model_info ->
  truthy (mi_manufacturer model_info) = true ->
  mi_model model_info <> "" ->
  create_source_entity hass (entity_id entry) = Ok source_entity ->
  mi_manufacturer model_info = Some MANUFACTURER_WLED ->
  domain entry = LIGHT_DOMAIN ->
  (re_search_master_segment (py_str (original_name entry)) = false ->
     (process_entity hass self entry).1.1
     = (if existsb (is_existing_entry source_entity) (config_entries hass) then []
        else [wled_record source_entity (mi_model model_info)])
     /\ (process_entity hass self entry).2 = Ok tt
     /\ is_vendor_special (wled_record source_entity (mi_model model_info)) = true
     /\ (forall library,
           process_entity (with_library hass library) self entry
           = process_entity hass self entry))
  /\ (re_search_master_segment (py_str (original_name entry)) = true ->
      Forall (fun e => is_vendor_special e = false) (process_entity hass self entry).1.1).
Proof.
  intros Hc Hmi Hman Hmod Hse Hw Hdom. split; intros Hname.
  - assert (Hwled : is_wled_light model_info entry = true).
    { unfold is_wled_light. rewrite Hdom, Hname, (bool_decide_eq_true_2 _ Hw). reflexivity. }
    rewrite (process_entity_wled hass self entry model_info source_entity) by assumption.
    cbn [fst snd]. rewrite (init_entity_discovery_wled hass source_entity model_info Hw).
    do 3 (split; [reflexivity|]).
    intros library.
    rewrite (process_entity_wled (with_library hass library) self entry
               model_info source_entity) by assumption.
    rewrite (init_entity_discovery_wled (with_library hass library) source_entity
               model_info Hw).
    reflexivity.
  - assert (Hwled : is_wled_light model_info entry = false).
    { unfold is_wled_light. rewrite Hname. cbn. apply andb_false_r. }
    rewrite (process_entity_lookup hass self entry model_info source_entity)
      by (repeat split; assumption).
    destruct (get_power_profile hass model_info) as [p|[|msg]]; try constructor.
    destruct (negb _); [constructor|]. apply init_entity_discovery_profile.
Qed.

(** ** Identity resolution *)

Lemma list_ascii_of_string_app (a b : string) :
  list_ascii_of_string (a +:+ b) = list_ascii_of_string a ++ list_ascii_of_string b.
Proof.
  induction a as [|c a IH]; [reflexivity|].
  change (String c a +:+ b) with (String c (a +:+ b)).
  cbn [list_ascii_of_string]. now rewrite IH.
Qed.

(** The characters of [s.replace(old, new)]: every [old] gives way to
    the characters of [new], every other character stays. *)
Lemma str_replace_char_chars old new s :
  list_ascii_of_string (str_replace_char old new s)
  = flat_map (fun c => if Ascii.eqb c old then list_ascii_of_string new else [c])
      (list_ascii_of_string s).
Proof.
  induction s as [|c s IH]; [reflexivity|].
  cbn [str_replace_char list_ascii_of_string flat_map].
  destruct (Ascii.eqb c old).
  - now rewrite list_ascii_of_string_app, IH.
  - cbn [list_ascii_of_string app]. now rewrite IH.
Qed.

Lemma str_replace_slash_chars s :
  list_ascii_of_string (str_replace_char "/" "#slash#" s)
  = flat_map (fun c => if Ascii.eqb c "/" then list_ascii_of_string "#slash#" else [c])
      (list_ascii_of_string s).
Proof. apply str_replace_char_chars. Qed.

Lemma str_replace_slash_free s :
  ~ In "/"%char (list_ascii_of_string (str_replace_char "/" "#slash#" s)).
Proof.
  rewrite str_replace_slash_chars. intros (c & _ & Hc)%in_flat_map.
  destruct (Ascii.eqb c "/") eqn:E.
  - cbn in Hc. intuition discriminate.
  - destruct Hc as [->|[]]. now rewrite Ascii.eqb_refl in E.
Qed.

Lemma str_replace_slash_nonempty s : s <> "" -> str_replace_char "/" "#slash#" s <> "".
Proof.
  destruct s as [|c s]; [done|]. intros _. cbn [str_replace_char].
  destruct (Ascii.eqb c "/"); discriminate.
Qed.

Lemma length_zero_empty s : (String.length s =? 0)%nat = false <-> s <> "".
Proof. destruct s; cbn; split; congruence. Qed.

(** What [autodiscover_model] returns, when it returns an identity. *)
Lemma autodiscover_model_some hass entry model_info :
  autodiscover_model hass (Some entry) = Some model_info ->
  exists device,
    device_registry_async_get hass (device_id entry) = Some device
    /\ py_str (dev_manufacturer device) <> ""
    /\ py_str (dev_model device) <> ""
    /\ model_info
       = {| mi_manufacturer :=
              (if truthy (dev_manufacturer device ≫= (MANUFACTURER_ALIASES !!.))
               then dev_manufacturer device ≫= (MANUFACTURER_ALIASES !!.)
               else dev_manufacturer device);
            mi_model := str_replace_char "/" "#slash#" (py_str (dev_model device)) |}.
Proof.
  unfold autodiscover_model, has_manufacturer_and_model_information.
  destruct (device_registry_async_get hass (device_id entry)) as [device|]; [|done].
  destruct (String.length (py_str (dev_manufacturer device)) =? 0)%nat eqn:E1; [done|].
  destruct (String.length (py_str (dev_model device)) =? 0)%nat eqn:E2; [done|].
  cbn. intros [= <-]. exists device.
  apply length_zero_empty in E1, E2. done.
Qed.

(** C8: for an entity whose device exists with a manufacturer and a
    model, [autodiscover_model] returns the manufacturer's alias, or
    the manufacturer itself when the table has none, and the model with
    every "/" replaced by "#slash#", so that no "/" is left; "Ikea"
    aliased to "IKEA" with model "TRADFRI/bulb" gives IKEA and
    "TRADFRI#slash#bulb". The alias table is taken to hold no empty
    canonical name. *)
Theorem autodiscover_model_identity
    (hass : HomeAssistant) (entry : RegistryEntry) (device : DeviceEntry)
    (manufacturer model : string) :
  (forall raw canonical, MANUFACTURER_ALIASES !! raw = Some canonical -> canonical <> "") ->
  device_registry_async_get hass (device_id entry) = Some device ->
  dev_manufacturer device = Some manufacturer ->
  dev_model device = Some model ->
  manufacturer <> "" ->
  model <> "" ->
  autodiscover_model hass (Some entry)
  = Some {| mi_manufacturer := Some (default manufacturer (MANUFACTURER_ALIASES !! manufacturer));
            mi_model := str_replace_char "/" "#slash#" model |}
  /\ list_ascii_of_string (str_replace_char "/" "#slash#" model)
     = flat_map (fun c => if Ascii.eqb c "/" then list_ascii_of_string "#slash#" else [c])
         (list_ascii_of_string model)
  /\ ~ In "/"%char (list_ascii_of_string (str_replace_char "/" "#slash#" model))
  /\ (manufacturer = "Ikea" -> MANUFACTURER_ALIASES !! "Ikea" = Some "IKEA" ->
      model = "TRADFRI/bulb" ->
      autodiscover_model hass (Some entry)
      = Some {| mi_manufacturer := Some "IKEA"; mi_model := "TRADFRI#slash#bulb" |}).
Proof.
  intros Htable Hdev Hman Hmod Hm Hmd.
  assert (Hres : autodiscover_model hass (Some entry)
                 = Some {| mi_manufacturer :=
                             Some (default manufacturer (MANUFACTURER_ALIASES !! manufacturer));
                           mi_model := str_replace_char "/" "#slash#" model |}).
  { unfold autodiscover_model, has_manufacturer_and_model_information.
    rewrite Hdev, Hman, Hmod. cbn [py_str].
    apply length_zero_empty in Hm, Hmd. rewrite Hm, Hmd. cbn.
    destruct (MANUFACTURER_ALIASES !! manufacturer) as [a|] eqn:Ha; [|reflexivity].
    cbn. apply Htable in Ha. apply String.eqb_neq in Ha. now rewrite Ha. }
  split; [exact Hres|]. split; [apply str_replace_slash_chars|].
  split; [apply str_replace_slash_free|].
  intros -> Ha ->. rewrite Hres, Ha. reflexivity.
Qed.

(** X17: every identity [autodiscover_model] returns is that of an
    entry whose device is in the registry. Its model is the device's
    model, as [str] prints it, with every "/" replaced by "#slash#": it
    is not empty and holds no "/". Its manufacturer is never the empty
    string, and it is [None] exactly when the device has none. *)
Theorem autodiscover_model_fields
    (hass : HomeAssistant) (entry : option RegistryEntry) (model_info : ModelInfo) :
  autodiscover_model hass entry = Some model_info ->
  exists e device,
    entry = Some e
    /\ device_registry_async_get hass (device_id e) = Some device
    /\ mi_model model_info = str_replace_char "/" "#slash#" (py_str (dev_model device))
    /\ list_ascii_of_string (mi_model model_info)
       = flat_map (fun c => if Ascii.eqb c "/" then list_ascii_of_string "#slash#" else [c])
           (list_ascii_of_string (py_str (dev_model device)))
    /\ mi_model model_info <> ""
    /\ ~ In "/"%char (list_ascii_of_string (mi_model model_info))
    /\ mi_manufacturer model_info <> Some ""
    /\ (mi_manufacturer model_info = None <-> dev_manufacturer device = None).
Proof.
  destruct entry as [e|]; [|discriminate].
  intros (device & Hdev & Hman & Hmod & ->)%autodiscover_model_some.
  exists e, device. cbn [mi_model mi_manufacturer].
  split; [reflexivity|]. split; [exact Hdev|]. split; [reflexivity|].
  split; [apply str_replace_slash_chars|].
  split; [now apply str_replace_slash_nonempty|].
  split; [apply str_replace_slash_free|].
  split.
  - destruct (dev_manufacturer device) as [m|]; cbn in *; [|done].
    destruct (MANUFACTURER_ALIASES !! m) as [a|]; cbn.
    + destruct (String.eqb a "") eqn:E; cbn; [congruence|].
      apply String.eqb_neq in E. congruence.
    + congruence.
  - destruct (dev_manufacturer device) as [m|]; cbn; [|done].
    destruct (MANUFACTURER_ALIASES !! m) as [a|]; cbn; [|done].
    destruct (String.eqb a ""); cbn; done.
Qed.

End claims.

(** * Further properties of the module *)

Section further.

Context {tables : Tables}.

(** ** The eligibility filter *)

Lemma unqualified_turn hass self entry :
  qualifies entry = false ->
  process_entity hass self entry = ([], self, Ok tt).
Proof.
  unfold qualifies, process_entity, should_process_entity. intros H.
  destruct (disabled entry); [reflexivity|].
  destruct (bool_decide _); [|reflexivity].
  destruct (match entity_category entry with
            | Some CONFIG | Some DIAGNOSTIC => true | _ => false end); [reflexivity|].
  discriminate H.
Qed.

(** X1: a sweep over entries that are each disabled, of a domain that is
    not covered, or configuration or diagnostic entities hands nothing
    to the host, raises nothing and leaves the manager as it was: the
    index is not built and no collaborator is called. *)
Theorem unqualified_registry_untouched
    (hass : HomeAssistant) (self : DiscoveryManager) (entries : list RegistryEntry) :
  Forall (fun entry => qualifies entry = false) entries ->
  discovery_loop hass self entries = ([], self, Ok tt).
Proof.
  induction 1 as [|entry rest H _ IH]; [reflexivity|].
  cbn [discovery_loop]. rewrite (unqualified_turn hass self entry H), IH. reflexivity.
Qed.

Lemma entity_category_excluded entry :
  match entity_category entry with
  | Some CONFIG | Some DIAGNOSTIC => true
  | _ => false
  end = false
  <-> entity_category entry <> Some CONFIG /\ entity_category entry <> Some DIAGNOSTIC.
Proof. destruct (entity_category entry) as [[]|]; split; try done; intros []; done. Qed.

Lemma qualifies_iff entry :
  qualifies entry = true
  <-> disabled entry = false
      /\ domain entry ∈ (map_to_list DEVICE_DOMAINS).*2
      /\ entity_category entry <> Some CONFIG
      /\ entity_category entry <> Some DIAGNOSTIC.
Proof.
  unfold qualifies.
  rewrite !andb_true_iff, !negb_true_iff, bool_decide_eq_true, entity_category_excluded.
  tauto.
Qed.

(** X2: for a manager that holds no index, [should_process_entity]
    accepts an entry exactly when it is enabled, its domain is one of the
    values of [DEVICE_DOMAINS], its category is neither configuration nor
    diagnostic, and [_load_manually_configured_entities] returns a list
    of which its identifier is not, as a string, an element. *)
Theorem fresh_manager_accepts_iff (hass : HomeAssistant) (entry : RegistryEntry) :
  (should_process_entity hass new_manager entry).1 = Ok true
  <-> disabled entry = false
      /\ domain entry ∈ (map_to_list DEVICE_DOMAINS).*2
      /\ entity_category entry <> Some CONFIG
      /\ entity_category entry <> Some DIAGNOSTIC
      /\ exists index,
           _load_manually_configured_entities hass = Ok index
           /\ ~ In (YStr (entity_id entry)) index.
Proof.
  destruct (should_process_entity_index hass new_manager entry) as [-> _].
  change (index_of hass new_manager) with (_load_manually_configured_entities hass).
  pose proof (qualifies_iff entry) as Hq.
  destruct (_load_manually_configured_entities hass) as [index|e]; cbn [result_map].
  - change (isCandidate index entry)
      with (qualifies entry && negb (entity_id_in (entity_id entry) index)).
    destruct (qualifies entry); cbn [andb].
    + split.
      * intros [= Hin]. apply negb_true_iff in Hin.
        destruct Hq as [Hq _]. destruct (Hq eq_refl) as (H1 & H2 & H3 & H4).
        repeat (split; [assumption|]). exists index. split; [reflexivity|].
        rewrite <- entity_id_in_In. congruence.
      * intros (_ & _ & _ & _ & index' & [= <-] & Hin). f_equal.
        apply negb_true_iff, not_true_iff_false. now rewrite entity_id_in_In.
    + split; [discriminate|]. intros (H1 & H2 & H3 & H4 & _).
      destruct Hq as [_ Hq]. discriminate Hq. tauto.
  - destruct (qualifies entry); (split; [discriminate|]);
      intros (_ & _ & _ & _ & index & Hload & _); discriminate Hload.
Qed.

(** X3: a manager that holds no index reports an identifier as set up
    by hand exactly when the sensor section can be iterated and the
    identifier is a string the scan returns for a powercalc platform
    block among the items of the section, or the entity id stored in a
    configuration entry whose source is "user"; when the section cannot
    be iterated, the test raises what the iteration raises. *)
Theorem fresh_manager_user_configured_iff (hass : HomeAssistant) (id : string) :
  ((_is_user_configured hass new_manager id).1 = Ok true
   <-> (exists items, sensor_items hass = Ok items)
       /\ ((exists items block,
               sensor_items hass = Ok items
               /\ In block items
               /\ is_platform_entry block = true
               /\ In (YStr id) (find_entity_ids block))
           \/ (exists entry,
                  In entry (config_entries hass)
                  /\ ce_source entry = SOURCE_USER
                  /\ ce_entity_id entry = Some id)))
  /\ (forall e,
        sensor_items hass = Raise e ->
        (_is_user_configured hass new_manager id).1 = Raise e).
Proof.
  split.
  - destruct (is_user_configured_index hass new_manager id) as [-> _].
    change (index_of hass new_manager) with (_load_manually_configured_entities hass).
    split.
    + destruct (_load_manually_configured_entities hass) as [index|e] eqn:Hload;
        cbn [result_map]; [|discriminate].
      intros [= Hin]. apply entity_id_in_In in Hin.
      unfold _load_manually_configured_entities in Hload.
      destruct (sensor_items hass) as [items|e]; [|discriminate].
      injection Hload as <-. split; [eauto|].
      apply in_app_iff in Hin as [Hy|Hu].
      * left. apply in_flat_map in Hy as (block & Hb & Hin).
        apply filter_In in Hb as [Hb Hp]. exists items, block. done.
      * right. apply in_map_iff in Hu as (entry & Hid & Hin).
        apply filter_In in Hin as [Hin Hsrc]. exists entry.
        apply String.eqb_eq in Hsrc. repeat split; [done|done|].
        unfold entry_entity_id in Hid. destruct (ce_entity_id entry); congruence.
    + intros [[items Hitems] Hman].
      assert (Hload : exists index, _load_manually_configured_entities hass = Ok index).
      { unfold _load_manually_configured_entities. rewrite Hitems. eauto. }
      destruct Hload as [index Hload]. rewrite Hload. cbn [result_map]. f_equal.
      apply entity_id_in_In. now apply (manually_configured_loaded hass id).
  - intros e He. unfold _is_user_configured, _load_manually_configured_entities.
    cbn. now rewrite He.
Qed.

Lemma no_platform_entry_among_strings (l : list string) :
  List.filter is_platform_entry (List.map YStr l) = [].
Proof. induction l as [|x l IH]; [reflexivity|exact IH]. Qed.

(** X18: what the sensor section adds to the index depends on its shape.
    Of a sequence, the items that are powercalc platform blocks are
    scanned. A mapping, even one that is itself a powercalc platform
    block, is iterated key by key and a string character by character:
    neither adds anything, and the index holds the entity ids of the
    entries the user created, as it does without a sensor section. A
    section that is null, a number or a boolean cannot be iterated, and
    loading the index raises [TypeError]. *)
Theorem sensor_section_shapes (hass : HomeAssistant) :
  let from_entries :=
    List.map entry_entity_id
      (List.filter (fun entry => String.eqb (ce_source entry) SOURCE_USER)
         (config_entries hass)) in
  (forall items,
      ha_config_sensor hass = Some (YList items) ->
      _load_manually_configured_entities hass
      = Ok (flat_map find_entity_ids (List.filter is_platform_entry items) ++ from_entries))
  /\ (forall d,
        ha_config_sensor hass = Some (YDict d) ->
        _load_manually_configured_entities hass = Ok from_entries)
  /\ (forall text,
        ha_config_sensor hass = Some (YStr text) ->
        _load_manually_configured_entities hass = Ok from_entries)
  /\ (ha_config_sensor hass = None ->
      _load_manually_configured_entities hass = Ok from_entries)
  /\ (forall v,
        ha_config_sensor hass = Some v ->
        match v with YNone | YInt _ | YBool _ => True | _ => False end ->
        _load_manually_configured_entities hass = Raise (OtherError "TypeError")).
Proof.
  cbv zeta. unfold _load_manually_configured_entities, sensor_items.
  split; [|split; [|split; [|split]]].
  - intros items ->. reflexivity.
  - intros d ->. cbn [py_iter].
    rewrite <- (map_map fst YStr), no_platform_entry_among_strings. reflexivity.
  - intros text ->. cbn [py_iter].
    rewrite <- (map_map (fun c => String c EmptyString) YStr),
      no_platform_entry_among_strings.
    reflexivity.
  - intros ->. reflexivity.
  - intros v -> Hv. destruct v; try destruct Hv; reflexivity.
Qed.

(** X19: when the sensor section cannot be iterated, a sweep of a
    manager without a usable index dispatches nothing. The entries ahead
    of the first one that passes the three checks before the membership
    test are passed over; for that one the membership test raises, the
    exception leaves [start_discovery], the rest of the registry is not
    visited, and the manager holds the index it held before. *)
Theorem unreadable_sensor_section_aborts
    (hass : HomeAssistant) (self : DiscoveryManager)
    (before rest : list RegistryEntry) (entry : RegistryEntry) (e : exn) :
  index_truthy (manually_configured_entities self) = false ->
  _load_manually_configured_entities hass = Raise e ->
  Forall (fun x => qualifies x = false) before ->
  qualifies entry = true ->
  discovery_loop hass self (before ++ entry :: rest)
  = ([],
     {| manually_configured_entities := manually_configured_entities self;
        index_builds := S (index_builds self) |},
     Raise e).
Proof.
  intros Ht Hload Hbefore Hq.
  induction Hbefore as [|x before Hx _ IH].
  - cbn [app discovery_loop]. unfold process_entity, should_process_entity.
    unfold qualifies in Hq.
    destruct (disabled entry); [discriminate Hq|].
    destruct (bool_decide _); [|discriminate Hq].
    destruct (match entity_category entry with
              | Some CONFIG | Some DIAGNOSTIC => true | _ => false end); [discriminate Hq|].
    cbn [negb].
    now rewrite (is_user_configured_raises hass self (entity_id entry) e Ht Hload).
  - cbn [app discovery_loop]. rewrite (unqualified_turn hass self x Hx), IH. reflexivity.
Qed.

(** ** What the dispatch step hands to the host *)

Lemma is_existing_entry_true source_entity entry :
  is_existing_entry source_entity entry = true
  <-> ce_unique_id entry = se_unique_id source_entity
      \/ ce_unique_id entry = Some ("pc_" +:+ py_str (se_unique_id source_entity)).
Proof. unfold is_existing_entry. now rewrite orb_true_iff, !bool_decide_eq_true. Qed.

Lemma filter_nil_Forall {A : Type} (f : A -> bool) (l : list A) :
  List.filter f l = [] <-> Forall (fun x => f x = false) l.
Proof.
  induction l as [|x l IH]; cbn; [split; [constructor|reflexivity]|].
  destruct (f x) eqn:E; split.
  - discriminate.
  - intros H. apply Forall_cons_1 in H as [H _]. congruence.
  - intros H. constructor; [exact E|]. now apply IH.
  - intros H. apply Forall_cons_1 in H as [_ H]. now apply IH.
Qed.

Lemma init_entity_discovery_existing hass source_entity power_profile extra entry :
  In entry (config_entries hass) ->
  is_existing_entry source_entity entry = true ->
  _init_entity_discovery hass source_entity power_profile extra = [].
Proof.
  intros Hin He. unfold _init_entity_discovery.
  assert (H : In entry (List.filter (is_existing_entry source_entity) (config_entries hass)))
    by now apply filter_In.
  now destruct (List.filter _ _).
Qed.

(** X4: [_init_entity_discovery] dispatches nothing exactly when some
    configuration entry has the source entity's unique id or that id
    prefixed with "pc_"; in every other case it dispatches. *)
Theorem init_entity_discovery_nothing_iff
    (hass : HomeAssistant) (source_entity : SourceEntity)
    (power_profile : option PowerProfile) (extra : option (gmap string dvalue)) :
  _init_entity_discovery hass source_entity power_profile extra = []
  <-> exists entry,
        In entry (config_entries hass)
        /\ (ce_unique_id entry = se_unique_id source_entity
            \/ ce_unique_id entry
               = Some ("pc_" +:+ py_str (se_unique_id source_entity))).
Proof.
  split.
  - unfold _init_entity_discovery.
    destruct (List.filter _ _) as [|entry l] eqn:F; [discriminate|]. intros _.
    assert (H : In entry (List.filter (is_existing_entry source_entity) (config_entries hass)))
      by (rewrite F; now left).
    apply filter_In in H as [Hin He]. exists entry. split; [exact Hin|].
    now apply is_existing_entry_true.
  - intros (entry & Hin & He).
    apply (init_entity_discovery_existing hass source_entity power_profile extra entry Hin).
    now apply is_existing_entry_true.
Qed.

(** X5: a source entity without unique id is compared as [None] and as
    the string "pc_None": any configuration entry of the domain that has
    no unique id, or the unique id "pc_None", suppresses its discovery. *)
Theorem missing_unique_id_suppressed
    (hass : HomeAssistant) (source_entity : SourceEntity)
    (power_profile : option PowerProfile) (extra : option (gmap string dvalue))
    (entry : ConfigEntry) :
  se_unique_id source_entity = None ->
  In entry (config_entries hass) ->
  ce_unique_id entry = None \/ ce_unique_id entry = Some "pc_None" ->
  _init_entity_discovery hass source_entity power_profile extra = [].
Proof.
  intros Hnone Hin Hid.
  apply (init_entity_discovery_existing hass source_entity power_profile extra entry Hin).
  apply is_existing_entry_true. rewrite Hnone. exact Hid.
Qed.

(** X6: the platform load of the legacy routine is dispatched only
    together with, and right after, the discovery flow, only for a
    profile that needs no additional configuration, and its payload
    names the entity, its source entity, that profile and the discovery
    type "library". *)
Theorem legacy_payload_only_with_flow
    (hass : HomeAssistant) (source_entity : SourceEntity)
    (power_profile : option PowerProfile) (extra : option (gmap string dvalue))
    (component platform : string) (info : gmap string dvalue) :
  In (LoadPlatform component platform info)
    (_init_entity_discovery hass source_entity power_profile extra) ->
  exists p data,
    power_profile = Some p
    /\ is_additional_configuration_required p = false
    /\ _init_entity_discovery hass source_entity power_profile extra
       = [CreateFlow DOMAIN SOURCE_INTEGRATION_DISCOVERY data;
          LoadPlatform SENSOR_DOMAIN DOMAIN info]
    /\ info !! CONF_ENTITY_ID = Some (DStr (se_entity_id source_entity))
    /\ info !! DISCOVERY_SOURCE_ENTITY = Some (DSourceEntity source_entity)
    /\ info !! DISCOVERY_POWER_PROFILE = Some (DPowerProfile p)
    /\ info !! DISCOVERY_TYPE = Some (DType LIBRARY).
Proof.
  unfold _init_entity_discovery.
  destruct (List.filter _ _); [|intros []].
  intros [H|H]; [discriminate H|].
  destruct power_profile as [p|]; [|destruct H].
  destruct (is_additional_configuration_required p) eqn:Hreq; [destruct H|].
  cbn [negb] in *. destruct H as [H|[]]. injection H as <- <- <-.
  eexists p, _. split; [reflexivity|]. split; [exact Hreq|].
  repeat (split; [reflexivity|]). reflexivity.
Qed.

(** The payload of the flow, key by key: the extra data when it has the
    key, the data of the source entity and the profile otherwise. *)
Lemma updated_lookup (extra base : gmap string dvalue) (k : string) :
  (if (size extra =? 0)%nat then base else extra ∪ base) !! k
  = match extra !! k with
    | Some v => Some v
    | None => base !! k
    end.
Proof.
  destruct (size extra =? 0)%nat eqn:E.
  - apply Nat.eqb_eq, map_size_empty_iff in E. subst extra. now rewrite lookup_empty.
  - rewrite lookup_union. destruct (extra !! k), (base !! k); reflexivity.
Qed.

Lemma flow_payload_keys hass source_entity power_profile extra d src data :
  In (CreateFlow d src data)
    (_init_entity_discovery hass source_entity power_profile (Some extra)) ->
  extra !! DISCOVERY_SOURCE_ENTITY = None ->
  data !! DISCOVERY_SOURCE_ENTITY = Some (DSourceEntity source_entity).
Proof.
  unfold _init_entity_discovery.
  destruct (List.filter _ _); [|intros []].
  intros [H|H] Hk.
  - injection H as <- <- <-. rewrite updated_lookup, Hk. destruct power_profile; reflexivity.
  - destruct power_profile as [p|]; [|destruct H].
    destruct (negb _); [|destruct H]. destruct H as [H|[]]. discriminate H.
Qed.

(** X7: the discovery flow is created for the integration's domain with
    source "integration_discovery". In its payload every key of the
    extra data has the extra data's value; where the extra data has no
    such key, the payload names the entity and its source entity, holds
    the profile exactly when one is given, and the manufacturer and model
    of the profile. *)
Theorem flow_payload
    (hass : HomeAssistant) (source_entity : SourceEntity)
    (power_profile : option PowerProfile) (extra : gmap string dvalue)
    (flow_domain source : string) (data : gmap string dvalue) :
  In (CreateFlow flow_domain source data)
    (_init_entity_discovery hass source_entity power_profile (Some extra)) ->
  flow_domain = DOMAIN
  /\ source = SOURCE_INTEGRATION_DISCOVERY
  /\ (forall k v, extra !! k = Some v -> data !! k = Some v)
  /\ (extra !! CONF_ENTITY_ID = None ->
      data !! CONF_ENTITY_ID = Some (DStr (se_entity_id source_entity)))
  /\ (extra !! DISCOVERY_SOURCE_ENTITY = None ->
      data !! DISCOVERY_SOURCE_ENTITY = Some (DSourceEntity source_entity))
  /\ (extra !! DISCOVERY_POWER_PROFILE = None ->
      data !! DISCOVERY_POWER_PROFILE = DPowerProfile <$> power_profile)
  /\ (extra !! CONF_MANUFACTURER = None ->
      data !! CONF_MANUFACTURER = (fun p => DStr (pp_manufacturer p)) <$> power_profile)
  /\ (extra !! CONF_MODEL = None ->
      data !! CONF_MODEL = (fun p => DStr (pp_model p)) <$> power_profile).
Proof.
  unfold _init_entity_discovery.
  destruct (List.filter _ _); [|intros []].
  intros [H|H].
  - injection H as <- <- <-.
    split; [reflexivity|]. split; [reflexivity|].
    split; [intros k v Hk; now rewrite updated_lookup, Hk|].
    repeat split; intros Hk; rewrite updated_lookup, Hk;
      destruct power_profile; reflexivity.
  - destruct power_profile as [p|]; [|destruct H].
    destruct (negb _); [|destruct H]. destruct H as [H|[]]. discriminate H.
Qed.

(** ** What the sweep emits, and when it raises *)

Lemma init_effect_source hass source_entity power_profile extra effect :
  In effect (_init_entity_discovery hass source_entity power_profile (Some extra)) ->
  extra !! DISCOVERY_SOURCE_ENTITY = None ->
  effect_source_entity effect = Some source_entity
  /\ Forall (fun entry => is_existing_entry source_entity entry = false) (config_entries hass).
Proof.
  intros Hin Hextra. split.
  - destruct effect as [d src data|c pl info].
    + apply flow_payload_keys in Hin; [|exact Hextra].
      cbn [effect_source_entity]. now rewrite Hin.
    + revert Hin. unfold _init_entity_discovery.
      destruct (List.filter _ _); [|intros []].
      intros [H|H]; [discriminate H|].
      destruct power_profile as [p|]; [|destruct H].
      destruct (negb _); [|destruct H]. destruct H as [H|[]].
      injection H as <- <- <-. reflexivity.
  - apply filter_nil_Forall. revert Hin. unfold _init_entity_discovery.
    now destruct (List.filter _ _).
Qed.

Lemma turn_records_sound hass self entry effect :
  In effect (process_entity hass self entry).1.1 ->
  exists index source_entity,
    index_of hass self = Ok index
    /\ isCandidate index entry = true
    /\ identity_usable hass entry = true
    /\ create_source_entity hass (entity_id entry) = Ok source_entity
    /\ effect_source_entity effect = Some source_entity
    /\ Forall (fun ce => is_existing_entry source_entity ce = false) (config_entries hass).
Proof.
  unfold process_entity, identity_usable.
  destruct (should_process_entity_index hass self entry) as [Hc _].
  destruct (should_process_entity hass self entry) as [p s']. cbn [fst] in Hc. subst p.
  destruct (qualifies entry); [|intros []].
  destruct (index_of hass self) as [index|x]; cbn [result_map]; [|intros []].
  destruct (isCandidate index entry) eqn:Hcand; [|intros []].
  destruct (autodiscover_model hass (Some entry)) as [mi|]; [|intros []].
  destruct (truthy (mi_manufacturer mi)); cbn [negb orb andb]; [|intros []].
  destruct (String.eqb (mi_model mi) ""); cbn [negb]; [intros []|].
  destruct (create_source_entity hass (entity_id entry)) as [se|e]; [|intros []].
  destruct (is_wled_light mi entry).
  - cbn [fst]. intros Hin. exists index, se.
    apply init_effect_source in Hin as [H1 H2]; [|reflexivity].
    split; [reflexivity|]. split; [exact Hcand|].
    repeat (split; [reflexivity|]). split; assumption.
  - destruct (get_power_profile hass mi) as [pp|[|msg]]; try (intros []).
    destruct (negb _); [intros []|]. cbn [fst]. intros Hin. exists index, se.
    apply init_effect_source in Hin as [H1 H2]; [|reflexivity].
    split; [reflexivity|]. split; [exact Hcand|].
    repeat (split; [reflexivity|]). split; assumption.
Qed.

(** X8: every record a sweep hands to the host names the source entity
    created for an entry of the registry that passes the eligibility
    filter (enabled, covered domain, no configuration or diagnostic
    entity, not in the manager's index, which could be loaded), has a
    usable identity, and has no configuration entry with its unique id
    or the "pc_" variant. *)
Theorem sweep_records_sound
    (hass : HomeAssistant) (self : DiscoveryManager) (effect : effect) :
  In effect (start_discovery hass self).1.1 ->
  exists index entry source_entity,
    index_of hass self = Ok index
    /\ In entry (entities hass)
    /\ isCandidate index entry = true
    /\ identity_usable hass entry = true
    /\ create_source_entity hass (entity_id entry) = Ok source_entity
    /\ effect_source_entity effect = Some source_entity
    /\ Forall (fun ce => is_existing_entry source_entity ce = false) (config_entries hass).
Proof.
  unfold start_discovery. generalize (entities hass) as entries.
  assert (Hgen : forall entries s,
             index_of hass s = index_of hass self ->
             In effect (discovery_loop hass s entries).1.1 ->
             exists index entry source_entity,
               index_of hass self = Ok index
               /\ In entry entries
               /\ isCandidate index entry = true
               /\ identity_usable hass entry = true
               /\ create_source_entity hass (entity_id entry) = Ok source_entity
               /\ effect_source_entity effect = Some source_entity
               /\ Forall (fun ce => is_existing_entry source_entity ce = false)
                    (config_entries hass)).
  { induction entries as [|entry rest IH]; intros s Hidx; [intros []|].
    cbn [discovery_loop].
    pose proof (turn_records_sound hass s entry effect) as Hturn.
    pose proof (process_entity_index_kept hass s entry) as K.
    destruct (process_entity hass s entry) as [[e s'] r]. cbn [fst snd] in Hturn, K.
    assert (Hhere : In effect e ->
                    exists index entry0 source_entity,
                      index_of hass self = Ok index
                      /\ In entry0 (entry :: rest)
                      /\ isCandidate index entry0 = true
                      /\ identity_usable hass entry0 = true
                      /\ create_source_entity hass (entity_id entry0) = Ok source_entity
                      /\ effect_source_entity effect = Some source_entity
                      /\ Forall (fun ce => is_existing_entry source_entity ce = false)
                           (config_entries hass)).
    { intros Hin. destruct (Hturn Hin) as (index & se & Hi & H). rewrite Hidx in Hi.
      exists index, entry, se. split; [exact Hi|]. split; [now left|exact H]. }
    destruct r as [[]|x]; [|exact Hhere].
    specialize (IH s'). destruct (discovery_loop hass s' rest) as [[e' s''] r'].
    cbn [fst] in *. intros [Hin|Hin]%in_app_or; [now apply Hhere|].
    destruct IH as (index & entry0 & se & Hi & H0 & H); [congruence|exact Hin|].
    exists index, entry0, se. split; [exact Hi|]. split; [now right|exact H]. }
  intros entries. now apply Hgen.
Qed.

Lemma discovery_loop_turns hass self entries : forall s,
  index_of hass s = index_of hass self ->
  (forall entry, In entry entries -> (process_entity hass self entry).2 = Ok tt) ->
  (discovery_loop hass s entries).1.1
  = flat_map (fun entry => (process_entity hass self entry).1.1) entries
  /\ (discovery_loop hass s entries).2 = Ok tt.
Proof.
  induction entries as [|entry rest IH]; intros s Hidx Hok; [done|].
  cbn [discovery_loop flat_map].
  destruct (process_entity_index hass s self entry Hidx) as [He Hr].
  pose proof (process_entity_index_kept hass s entry) as K.
  rewrite (Hok entry (or_introl eq_refl)) in Hr. rewrite <- He.
  destruct (process_entity hass s entry) as [[e s'] r]. cbn [fst snd] in *. subst r.
  destruct (IH s') as [IHe IHr]; [congruence|intros; apply Hok; now right|].
  destruct (discovery_loop hass s' rest) as [[e' s''] r']. cbn [fst snd] in *.
  now subst.
Qed.

Lemma discovery_loop_ok_turns hass self entries : forall s,
  index_of hass s = index_of hass self ->
  (discovery_loop hass s entries).2 = Ok tt ->
  forall entry, In entry entries -> (process_entity hass self entry).2 = Ok tt.
Proof.
  induction entries as [|entry rest IH]; intros s Hidx Hok e0; [intros []|].
  cbn [discovery_loop] in Hok.
  destruct (process_entity_index hass s self entry Hidx) as [_ Hr].
  pose proof (process_entity_index_kept hass s entry) as K.
  destruct (process_entity hass s entry) as [[e s'] r]. cbn [fst snd] in *.
  destruct r as [[]|x]; [|discriminate].
  intros [<-|Hin]; [now symmetry|].
  apply (IH s'); [congruence| |exact Hin].
  now destruct (discovery_loop hass s' rest) as [[? ?] ?].
Qed.

(** X11: when the sweep over a registry raises nothing, the sweep over
    the same entries in any other order raises nothing either and emits
    the same records, each as often, in a possibly different order. *)
Theorem sweep_order_irrelevant
    (hass : HomeAssistant) (self : DiscoveryManager) (entries entries' : list RegistryEntry) :
  Permutation entries entries' ->
  (discovery_loop hass self entries).2 = Ok tt ->
  (discovery_loop hass self entries').2 = Ok tt
  /\ Permutation (discovery_loop hass self entries).1.1
       (discovery_loop hass self entries').1.1.
Proof.
  intros Hperm Hok.
  pose proof (discovery_loop_ok_turns hass self entries self eq_refl Hok) as Hturns.
  destruct (discovery_loop_turns hass self entries self eq_refl Hturns) as [He _].
  destruct (discovery_loop_turns hass self entries' self eq_refl) as [He' Hr'].
  { intros entry Hin. apply Hturns. now apply (Permutation_in _ (Permutation_sym Hperm)). }
  split; [exact Hr'|]. rewrite He, He'. now apply Permutation_flat_map.
Qed.

(** ** Identity resolution *)

Lemma py_str_empty x : py_str x = "" <-> x = Some "".
Proof. destruct x as [s|]; cbn; split; congruence. Qed.

(** X12: [has_manufacturer_and_model_information] holds exactly when the
    entity's device is in the registry and neither its manufacturer nor
    its model is the empty string, a missing manufacturer or model
    counting as present; [autodiscover_model] returns an identity exactly
    in that case, and none for a null entry or an entry without device. *)
Theorem identity_resolved_iff (hass : HomeAssistant) (entry : RegistryEntry) :
  (has_manufacturer_and_model_information hass entry = true
   <-> exists device,
         device_registry_async_get hass (device_id entry) = Some device
         /\ dev_manufacturer device <> Some ""
         /\ dev_model device <> Some "")
  /\ (is_Some (autodiscover_model hass (Some entry))
      <-> has_manufacturer_and_model_information hass entry = true)
  /\ autodiscover_model hass None = None
  /\ (device_id entry = None -> autodiscover_model hass (Some entry) = None).
Proof.
  split; [|split; [|split]].
  - unfold has_manufacturer_and_model_information.
    destruct (device_registry_async_get hass (device_id entry)) as [device|].
    + destruct (String.length (py_str (dev_manufacturer device)) =? 0)%nat eqn:E1;
        [|destruct (String.length (py_str (dev_model device)) =? 0)%nat eqn:E2]; cbn.
      * split; [discriminate|]. intros (d & [= <-] & H1 & _).
        exfalso. apply H1, py_str_empty.
        destruct (py_str (dev_manufacturer device)); [reflexivity|discriminate E1].
      * split; [discriminate|]. intros (d & [= <-] & _ & H2).
        exfalso. apply H2, py_str_empty.
        destruct (py_str (dev_model device)); [reflexivity|discriminate E2].
      * apply length_zero_empty in E1, E2. rewrite py_str_empty in E1, E2.
        split; [|reflexivity]. intros _. exists device. done.
    + split; [discriminate|]. intros (d & H & _). discriminate H.
  - unfold autodiscover_model.
    destruct (has_manufacturer_and_model_information hass entry) eqn:Hinfo; cbn [negb].
    + split; [reflexivity|]. intros _.
      unfold has_manufacturer_and_model_information in Hinfo.
      destruct (device_registry_async_get hass (device_id entry)); [eauto|discriminate].
    + split; [intros [x Hx]; discriminate Hx|discriminate].
  - reflexivity.
  - intros Hnone. unfold autodiscover_model, has_manufacturer_and_model_information.
    now rewrite Hnone.
Qed.

(** X13: for a device that has a manufacturer but no model, the identity
    returned has the model "None", the string [str] makes of a missing
    value, and it passes the guard of [start_discovery]. For an entry
    that passes the eligibility filter, gets a source entity and does
    not fall under the vendor-special rule, the library is then asked
    for that identity: its answer for the model "None" decides what the
    turn dispatches and whether it raises. *)
Theorem missing_model_becomes_None
    (hass : HomeAssistant) (entry : RegistryEntry) (device : DeviceEntry)
    (manufacturer : string) :
  device_registry_async_get hass (device_id entry) = Some device ->
  dev_manufacturer device = Some manufacturer ->
  manufacturer <> "" ->
  dev_model device = None ->
  exists model_info,
    autodiscover_model hass (Some entry) = Some model_info
    /\ mi_model model_info = "None"
    /\ identity_usable hass entry = true
    /\ (forall self source_entity,
          (should_process_entity hass self entry).1 = Ok true ->
          create_source_entity hass (entity_id entry) = Ok source_entity ->
          is_wled_light model_info entry = false ->
          process_entity hass self entry
          = match get_power_profile hass model_info with
            | Raise ModelNotSupported => ([], (should_process_entity hass self entry).2, Ok tt)
            | Raise e => ([], (should_process_entity hass self entry).2, Raise e)
            | Ok power_profile =>
                if negb (is_entity_domain_supported power_profile source_entity)
                then ([], (should_process_entity hass self entry).2, Ok tt)
                else (_init_entity_discovery hass source_entity (Some power_profile) (Some ∅),
                      (should_process_entity hass self entry).2, Ok tt)
            end).
Proof.
  intros Hdev Hman Hm Hmod.
  assert (Hres : exists resolved,
             resolved <> ""
             /\ autodiscover_model hass (Some entry)
                = Some {| mi_manufacturer := Some resolved; mi_model := "None" |}).
  { unfold autodiscover_model, has_manufacturer_and_model_information.
    rewrite Hdev, Hman, Hmod. cbn [py_str].
    apply length_zero_empty in Hm. rewrite Hm. cbn.
    destruct (MANUFACTURER_ALIASES !! manufacturer) as [a|]; cbn.
    - destruct (String.eqb a "") eqn:E; cbn.
      + exists manufacturer. split; [now apply length_zero_empty|reflexivity].
      + exists a. split; [now apply String.eqb_neq|reflexivity].
    - exists manufacturer. split; [now apply length_zero_empty|reflexivity]. }
  destruct Hres as (resolved & Hne & Hres).
  assert (Htruthy : truthy (Some resolved) = true).
  { cbn. apply String.eqb_neq in Hne. now rewrite Hne. }
  exists {| mi_manufacturer := Some resolved; mi_model := "None" |}.
  split; [exact Hres|]. split; [reflexivity|]. split.
  - unfold identity_usable. rewrite Hres. cbn [mi_manufacturer mi_model].
    now rewrite Htruthy.
  - intros self source_entity Hc Hse Hw.
    apply process_entity_lookup. repeat split; try assumption. discriminate.
Qed.

(** ** Strings *)

(** X14: the replacement of "/" leaves a model unchanged exactly when the
    model holds no "/". *)
Theorem slash_free_model_unchanged (model : string) :
  str_replace_char "/" "#slash#" model = model
  <-> ~ In "/"%char (list_ascii_of_string model).
Proof.
  split.
  - intros H. rewrite <- H. apply str_replace_slash_free.
  - induction model as [|c model IH]; [reflexivity|].
    cbn [list_ascii_of_string In str_replace_char]. intros Hno.
    destruct (Ascii.eqb c "/") eqn:E.
    + apply Ascii.eqb_eq in E. exfalso. apply Hno. now left.
    + rewrite IH; [reflexivity|]. intros Hin. apply Hno. now right.
Qed.

End further.

(** * The properties on concrete hosts *)

Import Examples.

(** ** Instances of the theorems *)

Lemma init_entity_discovery_dedup_witness :
  let hass := host [hue] [discovered_entry "light.hue"] None in
  In (discovered_entry "light.hue") (config_entries hass)
  /\ ce_unique_id (discovered_entry "light.hue") = se_unique_id (source_entity "light.hue")
  /\ _init_entity_discovery hass (source_entity "light.hue") (Some lct001) (Some ∅) = [].
Proof.
  cbv zeta. split; [now left|]. split; [reflexivity|].
  apply (init_entity_discovery_dedup (host [hue] [discovered_entry "light.hue"] None)
           (source_entity "light.hue") (Some lct001) (Some ∅)
           (discovered_entry "light.hue")).
  - now left.
  - left. reflexivity.
Defined.

Lemma manually_configured_example :
  manually_configured (host [hue] [] (Some (YList [block_with_string]))) "light.hue".
Proof.
  left. exists [block_with_string], block_with_string.
  repeat split; try reflexivity; now left.
Defined.

Lemma manually_configured_unreached_example :
  manually_configured (host [hue] [] (Some (YList [block_with_unreached]))) "light.hue".
Proof.
  left. exists [block_with_unreached], block_with_unreached.
  repeat split; try reflexivity; now left.
Defined.

Lemma manually_configured_not_offered_witness :
  manually_configured (host [hue] [] (Some (YList [block_with_string]))) "light.hue"
  /\ (process_entity (host [hue] [] (Some (YList [block_with_string]))) new_manager hue).1.1 = []
  /\ (start_discovery (host [hue] [] (Some (YList [block_with_string]))) new_manager).1.1 = []
  /\ occurrences_in_reach block_with_unreached = false
  /\ (start_discovery (host [hue] [] (Some (YList [block_with_unreached]))) new_manager).1.1 = []
  /\ (start_discovery (host [hue] [] None) new_manager).1.1 = library_records "light.hue".
Proof.
  split; [exact manually_configured_example|].
  destruct (manually_configured_not_offered
              (host [hue] [] (Some (YList [block_with_string]))) "light.hue"
              manually_configured_example) as (Hturn & Hsweep & _).
  destruct (manually_configured_not_offered
              (host [hue] [] (Some (YList [block_with_unreached]))) "light.hue"
              manually_configured_unreached_example) as (_ & Hsweep' & _).
  split; [|split; [|split; [|split]]].
  - apply (Hturn new_manager hue); reflexivity.
  - rewrite Hsweep. reflexivity.
  - reflexivity.
  - rewrite Hsweep'. reflexivity.
  - vm_compute. reflexivity.
Defined.

Lemma unusable_identity_not_offered_witness :
  let hass := host [anon] [] None in
  autodiscover_model hass (Some anon)
  = Some {| mi_manufacturer := None; mi_model := "X#slash#1" |}
  /\ has_manufacturer_and_model_information hass anon = true
  /\ (process_entity hass new_manager anon).1.1 = []
  /\ (process_entity hass new_manager anon).2 = Ok tt.
Proof.
  cbv zeta. split; [reflexivity|].
  destruct (unusable_identity_not_offered (host [anon] [] None) new_manager anon)
    as (He & _ & Hr & _ & Hinfo).
  - right. exists {| mi_manufacturer := None; mi_model := "X#slash#1" |}.
    split; [reflexivity|]. now left.
  - split; [|split; [exact He|exact (Hr [] eq_refl)]].
    apply (Hinfo {| dev_manufacturer := None; dev_model := Some "X/1" |});
      [reflexivity|reflexivity|discriminate].
Defined.

Lemma index_built_once_then_reused_witness :
  let hass := host [hue] [user_entry "light.other"] None in
  let later := host [hue] [user_entry "light.other"; user_entry "light.hue"] None in
  let built := {| manually_configured_entities := Some [YStr "light.other"];
                  index_builds := 1 |} in
  (start_discovery hass new_manager).1.2 = built
  /\ (start_discovery later built).1.2 = built.
Proof.
  cbv zeta.
  destruct (index_built_once_then_reused
              (host [hue] [user_entry "light.other"] None) new_manager
              [YStr "light.other"])
    as (_ & _ & _ & Hlater); [reflexivity|reflexivity|discriminate|].
  split; [reflexivity|]. apply Hlater.
Defined.

Lemma lookup_error_containment_witness :
  let hass := host [tradfri; hue] [] None in
  get_power_profile hass {| mi_manufacturer := Some "IKEA"; mi_model := "TRADFRI#slash#bulb" |}
  = Raise ModelNotSupported
  /\ (process_entity hass new_manager tradfri).1.1 = []
  /\ (start_discovery hass new_manager).1.1 = library_records "light.hue".
Proof.
  cbv zeta. split; [reflexivity|].
  destruct (lookup_error_containment (host [tradfri; hue] [] None) new_manager tradfri [hue]
              {| mi_manufacturer := Some "IKEA"; mi_model := "TRADFRI#slash#bulb" |}
              (source_entity "light.tradfri") ModelNotSupported) as [Hcaught _].
  - repeat split; try reflexivity; discriminate.
  - reflexivity.
  - destruct (Hcaught eq_refl) as [Hturn Hloop]. split.
    + now rewrite Hturn.
    + unfold start_discovery. cbn [entities host]. rewrite Hloop. vm_compute. reflexivity.
Defined.

Lemma wled_light_vendor_special_witness :
  let hass := host [strip; segment; long_s_master] [] None in
  re_search_master_segment "Living Room Strip" = false
  /\ re_search_master_segment "Light Strip Segment 1" = true
  /\ re_search_master_segment "MASTER" = true
  /\ re_search_master_segment ("Ma" +:+ long_s +:+ "ter strip") = true
  /\ (process_entity hass new_manager strip).1.1
     = [wled_record (source_entity "light.strip") "FOSS"]
  /\ Forall (fun e => is_vendor_special e = false)
       (process_entity hass new_manager segment).1.1
  /\ Forall (fun e => is_vendor_special e = false)
       (process_entity hass new_manager long_s_master).1.1.
Proof.
  cbv zeta. do 4 (split; [reflexivity|]). split; [|split].
  - pose proof (wled_light_vendor_special
                  (host [strip; segment; long_s_master] [] None) new_manager strip
                  {| mi_manufacturer := Some "WLED"; mi_model := "FOSS" |}
                  (source_entity "light.strip")
                  eq_refl eq_refl eq_refl ltac:(discriminate) eq_refl eq_refl eq_refl)
      as [Hplain _].
    destruct (Hplain eq_refl) as [Hrec _]. rewrite Hrec. reflexivity.
  - pose proof (wled_light_vendor_special
                  (host [strip; segment; long_s_master] [] None) new_manager segment
                  {| mi_manufacturer := Some "WLED"; mi_model := "FOSS" |}
                  (source_entity "light.strip_1")
                  eq_refl eq_refl eq_refl ltac:(discriminate) eq_refl eq_refl eq_refl)
      as [_ Hseg].
    apply Hseg. reflexivity.
  - pose proof (wled_light_vendor_special
                  (host [strip; segment; long_s_master] [] None) new_manager long_s_master
                  {| mi_manufacturer := Some "WLED"; mi_model := "FOSS" |}
                  (source_entity "light.strip_m")
                  eq_refl eq_refl eq_refl ltac:(discriminate) eq_refl eq_refl eq_refl)
      as [_ Hlong].
    apply Hlong. reflexivity.
Defined.

Lemma autodiscover_model_identity_witness :
  autodiscover_model (host [tradfri] [] None) (Some tradfri)
  = Some {| mi_manufacturer := Some "IKEA"; mi_model := "TRADFRI#slash#bulb" |}.
Proof.
  refine (proj2 (proj2 (proj2
            (autodiscover_model_identity (host [tradfri] [] None) tradfri
               {| dev_manufacturer := Some "Ikea"; dev_model := Some "TRADFRI/bulb" |}
               "Ikea" "TRADFRI/bulb" _ _ _ _ _ _))) eq_refl eq_refl eq_refl);
    try reflexivity; try discriminate.
  intros raw canonical H. cbn [MANUFACTURER_ALIASES tables] in H.
  apply lookup_singleton_Some in H as [_ <-]. discriminate.
Defined.

(** ** Where the claims as stated fail *)

(** C1 as stated fails: with one light the library knows and no
    configuration entry, the second sweep of an unchanged host emits the
    flow and the platform load again. *)
Lemma second_sweep_emits_again :
  let hass := host [hue] [] None in
  let first := start_discovery hass new_manager in
  let second := start_discovery hass first.1.2 in
  first.1.1 = library_records "light.hue"
  /\ second.1.1 = library_records "light.hue"
  /\ second.1.1 <> [].
Proof.
  cbv zeta. split; [vm_compute; reflexivity|]. split; [vm_compute; reflexivity|].
  vm_compute. discriminate.
Qed.

(** C3 as stated fails: "light.hue" stands in the list under the
    "entity_id" key of a powercalc platform block, and the sweep still
    emits its records: the list is one element of the index and equals no
    identifier. *)
Lemma entity_id_list_still_offered :
  let hass := host [hue] [] (Some (YList [block_with_list])) in
  is_platform_entry block_with_list = true
  /\ entity_id_occurrences block_with_list = [YList [YStr "light.hue"; YStr "light.other"]]
  /\ _load_manually_configured_entities hass
     = Ok [YList [YStr "light.hue"; YStr "light.other"]]
  /\ (start_discovery hass new_manager).1.1 = library_records "light.hue".
Proof. cbv zeta. repeat (split; [vm_compute; reflexivity|]). vm_compute; reflexivity. Qed.

(** C5 as stated fails twice. With nothing configured by hand the index
    is built again by every membership test: twice in a sweep over two
    lights. And a second sweep of the same manager answers from the
    index of the first: the user has set up "light.hue" in between, the
    index is neither built again nor changed, and the entity is offered,
    while a new manager offers nothing. *)
Lemma index_rebuilt_when_empty_and_stale_afterwards :
  let empty := host [hue; hue2] [] None in
  let before := host [hue] [user_entry "light.other"] None in
  let after := host [hue] [user_entry "light.other"; user_entry "light.hue"] None in
  let self := (start_discovery before new_manager).1.2 in
  index_builds (start_discovery empty new_manager).1.2 = 2
  /\ self = {| manually_configured_entities := Some [YStr "light.other"]; index_builds := 1 |}
  /\ _load_manually_configured_entities after = Ok [YStr "light.other"; YStr "light.hue"]
  /\ (start_discovery after self).1.2 = self
  /\ (start_discovery after self).1.1 = library_records "light.hue"
  /\ (start_discovery after new_manager).1.1 = [].
Proof. cbv zeta. repeat (split; [vm_compute; reflexivity|]). vm_compute; reflexivity. Qed.

(** C6 as stated fails: the lookup for the first entity raises an error
    other than "model not supported"; it leaves [start_discovery], and
    the second entity, which is discovered when it is alone in the
    registry, is never processed. *)
Lemma lookup_error_aborts_sweep :
  let hass := host [acme; hue] [] None in
  autodiscover_model hass (Some acme)
  = Some {| mi_manufacturer := Some "Acme"; mi_model := "X1" |}
  /\ get_power_profile hass {| mi_manufacturer := Some "Acme"; mi_model := "X1" |}
     = Raise (OtherError "profile unreadable")
  /\ (start_discovery hass new_manager).1.1 = []
  /\ (start_discovery hass new_manager).2 = Raise (OtherError "profile unreadable")
  /\ (start_discovery (host [hue] [] None) new_manager).1.1 = library_records "light.hue".
Proof. cbv zeta. repeat (split; [vm_compute; reflexivity|]). vm_compute; reflexivity. Qed.

(** C7 as stated fails: a candidate light of the vendor, named "Living
    Room Strip", with a resolved identity, gets no record when a
    configuration entry with its unique key exists. *)
Lemma wled_light_already_set_up :
  let hass := host [strip] [discovered_entry "light.strip"] None in
  (should_process_entity hass new_manager strip).1 = Ok true
  /\ autodiscover_model hass (Some strip)
     = Some {| mi_manufacturer := Some MANUFACTURER_WLED; mi_model := "FOSS" |}
  /\ domain strip = LIGHT_DOMAIN
  /\ re_search_master_segment (py_str (original_name strip)) = false
  /\ (process_entity hass new_manager strip).1.1 = []
  /\ (start_discovery hass new_manager).1.1 = [].
Proof. cbv zeta. repeat (split; [vm_compute; reflexivity|]). vm_compute; reflexivity. Qed.

(** C9 fails in the code: for a device without manufacturer and with
    the model "X/1", the identity returned has no manufacturer.
    [has_manufacturer_and_model_information] lets the device pass,
    because it measures the length of [str(None)], the four characters
    of "None", where it is documented to tell whether the manufacturer
    is known. *)
Lemma identity_without_manufacturer :
  let hass := host [anon] [] None in
  device_registry_async_get hass (device_id anon)
  = Some {| dev_manufacturer := None; dev_model := Some "X/1" |}
  /\ String.length (py_str None) = 4
  /\ has_manufacturer_and_model_information hass anon = true
  /\ autodiscover_model hass (Some anon)
     = Some {| mi_manufacturer := None; mi_model := "X#slash#1" |}.
Proof. cbv zeta. repeat (split; [vm_compute; reflexivity|]). vm_compute; reflexivity. Qed.

(** ** Instances of the further properties *)

Lemma unqualified_registry_untouched_witness :
  discovery_loop (MoreExamples.host [] []) new_manager
    [MoreExamples.disabled_hue; MoreExamples.diagnostic_hue]
  = ([], new_manager, Ok tt).
Proof.
  apply unqualified_registry_untouched.
  constructor; [vm_compute; reflexivity|].
  constructor; [vm_compute; reflexivity|]. constructor.
Defined.

Lemma missing_unique_id_suppressed_witness :
  _init_entity_discovery (MoreExamples.host [] [MoreExamples.yaml_entry])
    {| se_entity_id := "light.nomodel"; se_domain := "light"; se_unique_id := None |}
    (Some lct001) (Some ∅)
  = [].
Proof.
  apply (missing_unique_id_suppressed
           (MoreExamples.host [] [MoreExamples.yaml_entry])
           {| se_entity_id := "light.nomodel"; se_domain := "light"; se_unique_id := None |}
           (Some lct001) (Some ∅) MoreExamples.yaml_entry).
  - reflexivity.
  - now left.
  - now left.
Defined.

Lemma legacy_payload_only_with_flow_witness :
  length (_init_entity_discovery (host [hue] [] None) (source_entity "light.hue")
            (Some lct001) (Some ∅)) = 2.
Proof.
  destruct (legacy_payload_only_with_flow (host [hue] [] None) (source_entity "light.hue")
              (Some lct001) (Some ∅) "sensor" "powercalc"
              (<["discovery_type" := DType LIBRARY]>
                 (<["power_profile" := DPowerProfile lct001]>
                    (<["source_entity" := DSourceEntity (source_entity "light.hue")]>
                       (<["entity_id" := DStr "light.hue"]> ∅)))))
    as (p & data & _ & _ & Hout & _).
  - vm_compute. right. left. reflexivity.
  - rewrite Hout. reflexivity.
Defined.

Lemma flow_payload_witness :
  let data : gmap string dvalue :=
    <["model" := DStr "FOSS"]>
      (<["manufacturer" := DStr "WLED"]>
         (<["mode" := DMode WLED]>
            (<["source_entity" := DSourceEntity (source_entity "light.strip")]>
               (<["entity_id" := DStr "light.strip"]> ∅)))) in
  data !! CONF_MODE = Some (DMode WLED)
  /\ data !! CONF_ENTITY_ID = Some (DStr "light.strip")
  /\ data !! DISCOVERY_POWER_PROFILE = None.
Proof.
  cbv zeta.
  destruct (flow_payload (host [strip] [] None) (source_entity "light.strip") None
              (wled_discovery_data {| mi_manufacturer := Some "WLED"; mi_model := "FOSS" |})
              "powercalc" "integration_discovery"
              (<["model" := DStr "FOSS"]>
                 (<["manufacturer" := DStr "WLED"]>
                    (<["mode" := DMode WLED]>
                       (<["source_entity" := DSourceEntity (source_entity "light.strip")]>
                          (<["entity_id" := DStr "light.strip"]> ∅))))))
    as (_ & _ & Hextra & Hid & _ & Hprofile & _).
  - vm_compute. left. reflexivity.
  - split; [apply Hextra; vm_compute; reflexivity|].
    split; [apply Hid; vm_compute; reflexivity|].
    apply Hprofile. vm_compute. reflexivity.
Defined.

Lemma sweep_records_sound_witness :
  let hass := host [hue] [] None in
  exists index entry se,
    index_of hass new_manager = Ok index
    /\ In entry (entities hass)
    /\ isCandidate index entry = true
    /\ identity_usable hass entry = true
    /\ create_source_entity hass (entity_id entry) = Ok se
    /\ effect_source_entity
         (LoadPlatform "sensor" "powercalc"
            (<["discovery_type" := DType LIBRARY]>
               (<["power_profile" := DPowerProfile lct001]>
                  (<["source_entity" := DSourceEntity (source_entity "light.hue")]>
                     (<["entity_id" := DStr "light.hue"]> ∅)))))
       = Some se
    /\ Forall (fun ce => is_existing_entry se ce = false) (config_entries hass).
Proof.
  cbv zeta. apply (sweep_records_sound (host [hue] [] None) new_manager).
  vm_compute. right. left. reflexivity.
Defined.

Lemma autodiscover_model_fields_witness :
  exists e device,
    Some tradfri = Some e
    /\ device_registry_async_get (host [tradfri] [] None) (device_id e) = Some device
    /\ "TRADFRI#slash#bulb" = str_replace_char "/" "#slash#" (py_str (dev_model device))
    /\ dev_manufacturer device <> None.
Proof.
  destruct (autodiscover_model_fields (host [tradfri] [] None) (Some tradfri)
              {| mi_manufacturer := Some "IKEA"; mi_model := "TRADFRI#slash#bulb" |})
    as (e & device & He & Hdev & Hmodel & _ & _ & _ & _ & Hman); [reflexivity|].
  exists e, device. repeat (split; [assumption|]).
  intros Hnone. apply Hman in Hnone. discriminate Hnone.
Defined.

Lemma sensor_section_shapes_witness :
  let hass := host [hue] [] (Some block_with_string) in
  _load_manually_configured_entities hass = Ok []
  /\ (start_discovery hass new_manager).1.1 = library_records "light.hue".
Proof.
  cbv zeta. split.
  - destruct (sensor_section_shapes (host [hue] [] (Some block_with_string)))
      as (_ & Hmapping & _).
    exact (Hmapping _ eq_refl).
  - vm_compute. reflexivity.
Defined.

Lemma unreadable_sensor_section_aborts_witness :
  discovery_loop (host [] [] (Some YNone)) new_manager
    ([MoreExamples.disabled_hue] ++ hue :: [hue2])
  = ([], {| manually_configured_entities := None; index_builds := 1 |},
     Raise (OtherError "TypeError")).
Proof.
  apply (unreadable_sensor_section_aborts (host [] [] (Some YNone)) new_manager
           [MoreExamples.disabled_hue] [hue2] hue (OtherError "TypeError")).
  - reflexivity.
  - reflexivity.
  - constructor; [vm_compute; reflexivity|constructor].
  - vm_compute. reflexivity.
Defined.

Lemma sweep_order_irrelevant_witness :
  let hass := host [hue; strip] [] None in
  (discovery_loop hass new_manager [strip; hue]).2 = Ok tt
  /\ Permutation (discovery_loop hass new_manager [hue; strip]).1.1
       (discovery_loop hass new_manager [strip; hue]).1.1.
Proof.
  cbv zeta. apply sweep_order_irrelevant.
  - apply perm_swap.
  - vm_compute. reflexivity.
Defined.

Lemma missing_model_becomes_None_witness :
  let hass := MoreExamples.host [MoreExamples.nomodel] [] in
  exists model_info,
    autodiscover_model hass (Some MoreExamples.nomodel) = Some model_info
    /\ mi_model model_info = "None"
    /\ identity_usable hass MoreExamples.nomodel = true
    /\ (process_entity hass new_manager MoreExamples.nomodel).2
       = Raise (OtherError "profile unreadable").
Proof.
  cbv zeta.
  destruct (missing_model_becomes_None (MoreExamples.host [MoreExamples.nomodel] [])
              MoreExamples.nomodel
              {| dev_manufacturer := Some "Acme"; dev_model := None |} "Acme")
    as (model_info & Hres & Hmodel & Husable & Hturn).
  - vm_compute. reflexivity.
  - reflexivity.
  - discriminate.
  - reflexivity.
  - exists model_info. repeat (split; [assumption|]).
    injection Hres as <-.
    rewrite (Hturn new_manager
               {| se_entity_id := "light.nomodel"; se_domain := "light";
                  se_unique_id := None |});
      reflexivity.
Defined.
